(** * Bounding-box format converters of keras_cv.bounding_box.converters

    A shallow embedding of [keras_cv/bounding_box/converters.py] and the
    properties of [convert_format] stated by the specification.

    Numbers are exact rationals ([Qc], canonical fractions, so that equality
    of coordinates is Leibniz equality).  The framework operations the module
    calls ([tf.split], [tf.concat], [tf.cast], [tf.shape] and elementwise
    arithmetic) are modelled on nested lists; python exceptions are values of
    an error type and fallible functions return a [result]. *)

From Stdlib Require Import List String Ascii Bool Arith ZArith Lia DecimalString.
From Stdlib Require Import QArith Qcanon Field.
Import ListNotations.

Local Close Scope Q_scope.
Local Open Scope string_scope.
Local Open Scope list_scope.

(** ** Exceptions and results *)

(** The exceptions that can leave the module: the internal
    [RequiresImagesException], python's [ValueError] (with its message),
    [KeyError] of a failed dictionary subscript, and the framework's error for
    a [tf.split] whose sizes do not fit the axis. *)
Inductive exn : Type :=
| RequiresImagesException
| ValueError (msg : string)
| KeyError (key : string)
| InvalidArgumentError.

Inductive result (A : Type) : Type :=
| Ok (a : A)
| Raise (e : exn).

Arguments Ok {A} a.
Arguments Raise {A} e.

Definition bind {A B : Type} (m : result A) (k : A -> result B) : result B :=
  match m with
  | Ok a => k a
  | Raise e => Raise e
  end.

Notation "x <- m ;; k" := (bind m (fun x => k))
  (at level 61, m at next level, right associativity).
Notation "' p <- m ;; k" := (bind m (fun x => let p := x in k))
  (at level 61, p pattern, m at next level, right associativity).

(** [mapM f l]: run [f] on every element, left to right, stopping at the first
    exception. *)
Fixpoint mapM {A B : Type} (f : A -> result B) (l : list A) : result (list B) :=
  match l with
  | [] => Ok []
  | a :: l' => b <- f a ;; bs <- mapM f l' ;; Ok (b :: bs)
  end.

(** ** Rational literals *)

Definition qc (num : Z) (den : positive) : Qc := Q2Qc (num # den).
Definition qz (n : Z) : Qc := Q2Qc (inject_Z n).
Definition two : Qc := qz 2.

(** ** Tensors *)

Definition dtype := string.

(** A rank-3 tensor [batch, num_boxes, *]: its element type and its values.
    The last axis of a box tensor holds the four coordinates followed by the
    payload (class id, confidence, ...).  A tensor has one size along each
    axis; the nested lists do not enforce it, and an operation on the last
    axis fails as soon as one record is too short for it. *)
Record Tensor : Type := mkTensor {
  t_dtype : dtype;
  t_values : list (list (list Qc))
}.

(** A batch of images [batch, height, width, channels].  The converters read
    nothing but its shape. *)
Record Images : Type := mkImages {
  img_batch : nat;
  img_height : nat;
  img_width : nat;
  img_channels : nat
}.

Definition tf_shape (images : Images) : list nat :=
  [img_batch images; img_height images; img_width images; img_channels images].

(** A slice of width one along the last axis, [batch, num_boxes, 1], kept as
    [batch, num_boxes]. *)
Definition column := list (list Qc).
(** The remaining slice, [batch, num_boxes, k - 4]. *)
Definition payload := list (list (list Qc)).

(** Splitting one record [1, 1, 1, 1, -1]: impossible below four fields. *)
Definition split_record (r : list Qc) : result (Qc * Qc * Qc * Qc * list Qc) :=
  match r with
  | a :: b :: c :: d :: rest => Ok (a, b, c, d, rest)
  | _ => Raise InvalidArgumentError
  end.

(** [tf.split(boxes, [1, 1, 1, 1, -1], axis=-1)]. *)
Definition tf_split (boxes : Tensor)
  : result (column * column * column * column * payload) :=
  recs <- mapM (mapM split_record) (t_values boxes) ;;
  Ok (map (map (fun p => fst (fst (fst (fst p))))) recs,
      map (map (fun p => snd (fst (fst (fst p))))) recs,
      map (map (fun p => snd (fst (fst p)))) recs,
      map (map (fun p => snd (fst p))) recs,
      map (map (fun p => snd p)) recs).

(** Elementwise operations on slices. *)
Definition zip_with {A B C : Type} (f : A -> B -> C) (l : list A) (l' : list B)
  : list C :=
  map (fun ab => f (fst ab) (snd ab)) (combine l l').

Definition col_add (a b : column) : column := zip_with (zip_with Qcplus) a b.
Definition col_sub (a b : column) : column := zip_with (zip_with Qcminus) a b.
(** A slice times, or divided by, a scalar.  The framework divides by zero
    without an error (the quotient is an infinity or a nan); [Qc] has no such
    value and gives 0, so nothing is stated here about a division by zero. *)
Definition col_mul (a : column) (s : Qc) : column :=
  map (map (fun v => Qcmult v s)) a.
Definition col_div (a : column) (s : Qc) : column :=
  map (map (fun v => Qcdiv v s)) a.

(** [tf.concat([a, b, c, d, rest], axis=-1)]. *)
Definition concat_record (a b c d : Qc) (rest : list Qc) : list Qc :=
  a :: b :: c :: d :: rest.

Definition tf_concat (a b c d : column) (rest : payload)
  : list (list (list Qc)) :=
  zip_with (zip_with (fun abcd r =>
      concat_record (fst (fst (fst abcd))) (snd (fst (fst abcd)))
                    (snd (fst abcd)) (snd abcd) r))
    (zip_with (zip_with pair)
       (zip_with (zip_with pair) (zip_with (zip_with pair) a b) c) d)
    rest.

(** ** Lower-casing of format identifiers

    [str.lower] on ASCII text: the letters A-Z move to a-z and every other
    character stays.  No character outside ASCII lower-cases to a letter of
    the four format names, so membership of the lower-cased identifier in the
    dictionaries is decided as python decides it. *)

Definition lower_ascii (c : ascii) : ascii :=
  let n := nat_of_ascii c in
  if ((65 <=? n) && (n <=? 90))%nat then ascii_of_nat (n + 32) else c.

Fixpoint lower (s : string) : string :=
  match s with
  | EmptyString => EmptyString
  | String c s' => String (lower_ascii c) (lower s')
  end.

(** ** Python dictionaries with string keys, in insertion order *)

Definition dict (V : Type) := list (string * V).

Fixpoint dict_get {V : Type} (k : string) (d : dict V) : option V :=
  match d with
  | [] => None
  | (k', v) :: d' => if String.eqb k k' then Some v else dict_get k d'
  end.

(** [k in d] *)
Definition dict_mem {V : Type} (k : string) (d : dict V) : bool :=
  match dict_get k d with Some _ => true | None => false end.

Definition dict_keys {V : Type} (d : dict V) : list string := map fst d.

(** [d[k]] *)
Definition dict_subscript {V : Type} (d : dict V) (k : string) : result V :=
  match dict_get k d with Some v => Ok v | None => Raise (KeyError k) end.

(** [str(d.keys())], as an f-string renders it. *)
Definition repr_str (s : string) : string := "'" ++ s ++ "'".
Definition str_dict_keys {V : Type} (d : dict V) : string :=
  "dict_keys([" ++ String.concat ", " (map repr_str (dict_keys d)) ++ "])".

(** ** The closed set of formats *)

Inductive format : Type := XYWH | CENTER_XYWH | XYXY | REL_XYXY.

Definition format_name (f : format) : string :=
  match f with
  | XYWH => "xywh"
  | CENTER_XYWH => "center_xywh"
  | XYXY => "xyxy"
  | REL_XYXY => "rel_xyxy"
  end.

Definition all_formats : list format := [XYWH; CENTER_XYWH; XYXY; REL_XYXY].

Definition format_eqb (f g : format) : bool :=
  match f, g with
  | XYWH, XYWH | CENTER_XYWH, CENTER_XYWH | XYXY, XYXY | REL_XYXY, REL_XYXY =>
      true
  | _, _ => false
  end.

(** The formats whose coordinates are fractions of the image size. *)
Definition is_relative (f : format) : bool :=
  match f with REL_XYXY => true | _ => false end.

(** ** Box tensors and what a converter does to one record *)

(** Shape [batch, num_boxes, >= 4]. *)
Definition is_box_tensor (boxes : Tensor) : bool :=
  forallb (forallb (fun r => 4 <=? List.length r)%nat) (t_values boxes).

Definition zero : Qc := qz 0.
Definition field0 (r : list Qc) : Qc := nth 0 r zero.
Definition field1 (r : list Qc) : Qc := nth 1 r zero.
Definition field2 (r : list Qc) : Qc := nth 2 r zero.
Definition field3 (r : list Qc) : Qc := nth 3 r zero.
(** The trailing fields of a record: class id, confidence, ... *)
Definition trailing (r : list Qc) : list Qc := skipn 4 r.

Definition explode (r : list Qc) : Qc * Qc * Qc * Qc * list Qc :=
  (field0 r, field1 r, field2 r, field3 r, trailing r).

(** The coordinates a converter writes, per record; [width] and [height] are
    the image sizes in the element type of the boxes. *)
Definition record_to_xyxy (f : format) (width height : Qc) (r : list Qc)
  : list Qc :=
  match f with
  | XYWH =>
      concat_record (field0 r) (field1 r)
        (field0 r + field2 r)%Qc (field1 r + field3 r)%Qc (trailing r)
  | CENTER_XYWH =>
      concat_record (field0 r - field2 r / two)%Qc (field1 r - field3 r / two)%Qc
        (field0 r + field2 r / two)%Qc (field1 r + field3 r / two)%Qc
        (trailing r)
  | XYXY => r
  | REL_XYXY =>
      concat_record (field0 r * width)%Qc (field1 r * height)%Qc
        (field2 r * width)%Qc (field3 r * height)%Qc (trailing r)
  end.

Definition record_from_xyxy (f : format) (width height : Qc) (r : list Qc)
  : list Qc :=
  match f with
  | XYWH =>
      concat_record (field0 r) (field1 r)
        (field2 r - field0 r)%Qc (field3 r - field1 r)%Qc (trailing r)
  | CENTER_XYWH =>
      concat_record ((field0 r + field2 r) / two)%Qc
        ((field1 r + field3 r) / two)%Qc
        (field2 r - field0 r)%Qc (field3 r - field1 r)%Qc (trailing r)
  | XYXY => r
  | REL_XYXY =>
      concat_record (field0 r / width)%Qc (field1 r / height)%Qc
        (field2 r / width)%Qc (field3 r / height)%Qc (trailing r)
  end.

(** [needle] occurs in [text]. *)
Definition occurs_in (needle text : string) : Prop :=
  exists before after : string, text = (before ++ needle ++ after)%string.

(** The element-wise cast of exact arithmetic: every value is representable. *)
Definition exact_cast (dt : dtype) (v : Qc) : Qc := v.

(** ** The boxes and images of the scenarios of the specification *)

Definition float32 : dtype := "float32".
Definition images_1000 : Images := mkImages 1 1000 1000 3.
Definition corner_box : Tensor :=
  mkTensor float32 [[[qz 10; qz 10; qz 110; qz 110]]].
Definition relative_box : Tensor :=
  mkTensor float32 [[[qc 1 100; qc 1 100; qc 11 100; qc 11 100]]].
Definition center_box : Tensor :=
  mkTensor float32 [[[qz 60; qz 60; qz 100; qz 100]]].
Definition top_left_box : Tensor :=
  mkTensor float32 [[[qz 10; qz 10; qz 100; qz 100]]].
(** A corner box with a class id and a confidence, and the same box as top
    left, width and height. *)
Definition labelled_corner_box : Tensor :=
  mkTensor float32 [[[qz 10; qz 10; qz 110; qz 110; qz 7; qc 9 10]]].
Definition labelled_top_left_box : Tensor :=
  mkTensor float32 [[[qz 10; qz 10; qz 100; qz 100; qz 7; qc 9 10]]].

(** A tensor whose records have three fields only, and a second corner box. *)
Definition short_box : Tensor := mkTensor float32 [[[qz 1; qz 2; qz 3]]].
Definition corner_box_2 : Tensor :=
  mkTensor float32 [[[qz 20; qz 20; qz 120; qz 120]]].
Definition top_left_box_2 : Tensor :=
  mkTensor float32 [[[qz 20; qz 20; qz 100; qz 100]]].

(** * The DenseNet assembler of keras_cv.models

    [keras_cv/models/densenet.py] and [keras_cv/models/utils.py] build a graph
    of Keras layers.  The layers are data here (their class and the arguments
    the source gives them); what Keras does with them is an interface, so that
    the properties hold for whatever the framework computes. *)

Module DenseNet.

(** The python exceptions of the assembler, with their messages; the
    framework may raise any of them from its own calls. *)
Inductive py_exn : Type :=
| PyValueError (msg : string)
| PyTypeError (msg : string)
| PyIndexError (msg : string)
| PyOtherError (msg : string).

Inductive outcome (A : Type) : Type :=
| Returns (a : A)
| Raises (e : py_exn).

Arguments Returns {A} a.
Arguments Raises {A} e.

(** A computation that may [print]: the lines written to standard output, in
    order, and how it ends. *)
Definition io (A : Type) : Type := (list string * outcome A)%type.

Definition ret {A : Type} (a : A) : io A := ([], Returns a).
Definition raise {A : Type} (e : py_exn) : io A := ([], Raises e).
Definition lift {A : Type} (o : outcome A) : io A := ([], o).
Definition print (line : string) : io unit := ([line], Returns tt).

Definition io_bind {A B : Type} (m : io A) (k : A -> io B) : io B :=
  match m with
  | (out, Returns a) => let (out', r) := k a in (out ++ out', r)
  | (out, Raises e) => (out, Raises e)
  end.

Notation "x <~ m ;; k" := (io_bind m (fun x => k))
  (at level 61, m at next level, right associativity).

Definition result_of {A : Type} (m : io A) : outcome A := snd m.


(** The layers the assembler creates, with the arguments of the source;
    arguments it leaves to their defaults are not listed, except the stride
    and padding of a convolution (1 and "valid"). *)
Inductive layer : Type :=
| BatchNormalization (axis : Z) (epsilon : Qc) (name : string)
| Activation (activation : string) (name : string)
| Conv2D (filters kernel_size strides : Z) (padding : string)
    (use_bias : bool) (name : string)
| AveragePooling2D (pool_size strides : Z) (name : string)
| MaxPooling2D (pool_size strides : Z) (name : string)
| ZeroPadding2D (padding : (Z * Z) * (Z * Z))
| Concatenate (axis : Z) (name : string)
| GlobalAveragePooling2D (name : string)
| GlobalMaxPooling2D (name : string)
| Dense (units : Z) (activation : option string) (name : string)
| Rescaling (scale : Qc).

(** What the assembler asks of the framework.  [call l xs] creates the layer
    [l] and applies it to [xs]; [Input shape tensor] is [layers.Input];
    [Model] is [keras.Model(inputs, outputs, name)], its inputs one tensor or
    a list of tensors; [load_weights m path] is the model after
    [m.load_weights(path)]; [gfile_exists] is [tf.io.gfile.exists];
    [str_shape x] is [str(x.shape)]. *)
Class Keras : Type := {
  KTensor : Type;
  KModel : Type;
  gfile_exists : string -> bool;
  Input : list (option Z) -> option KTensor -> outcome KTensor;
  is_keras_tensor : KTensor -> bool;
  call : layer -> list KTensor -> outcome KTensor;
  int_shape : KTensor -> list (option Z);
  str_shape : KTensor -> string;
  get_source_inputs : KTensor -> outcome (list KTensor);
  Model : KTensor + list KTensor -> KTensor -> string -> outcome KModel;
  load_weights : KModel -> string -> outcome KModel
}.

(** [str(n)] of a python integer. *)
Definition str_int (n : Z) : string := NilZero.string_of_int (Z.to_int n).

(** [str(t)] of a tuple of integers and [None]. *)
Definition str_dim (d : option Z) : string :=
  match d with None => "None" | Some n => str_int n end.

Definition str_tuple (t : list (option Z)) : string :=
  match t with
  | [d] => "(" ++ str_dim d ++ ",)"
  | _ => "(" ++ String.concat ", " (map str_dim t) ++ ")"
  end.

(** [int(q)]: towards zero. *)
Definition py_int (q : Qc) : Z := Z.quot (Qnum q) (Zpos (Qden q)).

Fixpoint list_eqb (l l' : list Z) : bool :=
  match l, l' with
  | [], [] => true
  | a :: l, b :: l' => Z.eqb a b && list_eqb l l'
  | _, _ => false
  end.

(** [None in t] *)
Definition None_in (t : list (option Z)) : bool :=
  existsb (fun d => match d with None => true | Some _ => false end) t.

Definition BN_AXIS : Z := 3.
Definition bn_epsilon : Qc := qc 1001 100000000.

Definition weights_msg : string :=
  "The `weights` argument should be either "
  ++ "`None` or the path to the weights file to be loaded.".

Definition input_shape_msg (input_shape : list (option Z)) : string :=
  "If `include_top` is True, "
  ++ "you should specify a static `input_shape`. "
  ++ "Received: input_shape=" ++ str_tuple input_shape.

Section Assembler.

Context {K : Keras}.

(** [utils.get_input_tensor] *)
Definition get_input_tensor (input_shape : list (option Z))
    (input_tensor : option KTensor) : io KTensor :=
  match input_tensor with
  | None => lift (Input input_shape None)
  | Some t =>
      if negb (is_keras_tensor t) then lift (Input input_shape (Some t))
      else ret t
  end.

Definition conv_block (x : KTensor) (growth_rate : Z) (name : string)
  : io KTensor :=
  x1 <~ lift (call (BatchNormalization BN_AXIS bn_epsilon (name ++ "_0_bn"))
                [x]) ;;
  x1 <~ lift (call (Activation "relu" (name ++ "_0_relu")) [x1]) ;;
  x1 <~ lift (call (Conv2D (4 * growth_rate) 1 1 "valid" false
                      (name ++ "_1_conv")) [x1]) ;;
  x1 <~ lift (call (BatchNormalization BN_AXIS bn_epsilon (name ++ "_1_bn"))
                [x1]) ;;
  x1 <~ lift (call (Activation "relu" (name ++ "_1_relu")) [x1]) ;;
  x1 <~ lift (call (Conv2D growth_rate 3 1 "same" false (name ++ "_2_conv"))
                [x1]) ;;
  lift (call (Concatenate BN_AXIS (name ++ "_concat")) [x; x1]).

(** The body of the loop of [dense_block], for [i] in [range]. *)
Fixpoint dense_block_loop (x : KTensor) (range : list nat) (name : string)
  : io KTensor :=
  match range with
  | [] => ret x
  | i :: range' =>
      x <~ conv_block x 32
             (name ++ "_block" ++ str_int (Z.of_nat i + 1)) ;;
      dense_block_loop x range' name
  end.

Definition dense_block (x : KTensor) (blocks : Z) (name : string)
  : io KTensor :=
  dense_block_loop x (seq 0 (Z.to_nat blocks)) name.

Definition transition_block (x : KTensor) (reduction : Qc) (name : string)
  : io KTensor :=
  x <~ lift (call (BatchNormalization BN_AXIS bn_epsilon (name ++ "_bn"))
               [x]) ;;
  x <~ lift (call (Activation "relu" (name ++ "_relu")) [x]) ;;
  filters <~
    match nth_error (int_shape x) (Z.to_nat BN_AXIS) with
    | None => raise (PyIndexError "tuple index out of range")
    | Some None =>
        raise (PyTypeError
                 "unsupported operand type(s) for *: 'NoneType' and 'float'")
    | Some (Some channels) => ret (py_int (qz channels * reduction)%Qc)
    end ;;
  x <~ lift (call (Conv2D filters 1 1 "valid" false (name ++ "_conv")) [x]) ;;
  lift (call (AveragePooling2D 2 2 (name ++ "_pool")) [x]).

Definition _get_name (blocks : list Z) : string :=
  if list_eqb blocks [6; 12; 24; 16]%Z then "densenet121"
  else if list_eqb blocks [6; 12; 32; 32]%Z then "densenet169"
  else if list_eqb blocks [6; 12; 48; 32]%Z then "densenet201"
  else "densenet".

Definition _apply_classifier (x : KTensor) (classes : Z)
    (classifier_activation : option string) : io KTensor :=
  x <~ lift (call (GlobalAveragePooling2D "avg_pool") [x]) ;;
  lift (call (Dense classes classifier_activation "predictions") [x]).

Definition _apply_pooling_layer (x : KTensor) (pooling : option string)
  : io KTensor :=
  _ <~ print (str_shape x) ;;
  match pooling with
  | Some "avg" => lift (call (GlobalAveragePooling2D "avg_pool") [x])
  | Some "max" => lift (call (GlobalMaxPooling2D "max_pool") [x])
  | _ => ret x
  end.

(** [blocks[k]] *)
Definition blocks_subscript (blocks : list Z) (k : nat) : io Z :=
  match nth_error blocks k with
  | Some b => ret b
  | None => raise (PyIndexError "list index out of range")
  end.

Definition DenseNet (blocks : list Z) (include_preprocessing : bool)
    (include_top : bool) (weights : option string)
    (input_tensor : option KTensor) (input_shape : list (option Z))
    (pooling : option string) (classes : Z)
    (classifier_activation : option string) : io KModel :=
  if negb (match weights with None => true | Some path => gfile_exists path end)
  then raise (PyValueError weights_msg)
  else if include_top && None_in input_shape
  then raise (PyValueError (input_shape_msg input_shape))
  else
    img_input <~ get_input_tensor input_shape input_tensor ;;
    (* the rescaling layer is created and never applied *)
    let x := if include_preprocessing then Some (Rescaling (qc 1 255))
             else None in
    x <~ lift (call (ZeroPadding2D ((3, 3), (3, 3))%Z) [img_input]) ;;
    x <~ lift (call (Conv2D 64 7 2 "valid" false "conv1/conv") [x]) ;;
    x <~ lift (call (BatchNormalization BN_AXIS bn_epsilon "conv1/bn") [x]) ;;
    x <~ lift (call (Activation "relu" "conv1/relu") [x]) ;;
    x <~ lift (call (ZeroPadding2D ((1, 1), (1, 1))%Z) [x]) ;;
    x <~ lift (call (MaxPooling2D 3 2 "pool1") [x]) ;;
    b <~ blocks_subscript blocks 0 ;;
    x <~ dense_block x b "conv2" ;;
    x <~ transition_block x (qc 1 2) "pool2" ;;
    b <~ blocks_subscript blocks 1 ;;
    x <~ dense_block x b "conv3" ;;
    x <~ transition_block x (qc 1 2) "pool3" ;;
    b <~ blocks_subscript blocks 2 ;;
    x <~ dense_block x b "conv4" ;;
    x <~ transition_block x (qc 1 2) "pool4" ;;
    b <~ blocks_subscript blocks 3 ;;
    x <~ dense_block x b "conv5" ;;
    x <~ lift (call (BatchNormalization BN_AXIS bn_epsilon "bn") [x]) ;;
    x <~ lift (call (Activation "relu" "relu") [x]) ;;
    x <~ (if include_top
          then _apply_classifier x classes classifier_activation
          else _apply_pooling_layer x pooling) ;;
    inputs <~
      match input_tensor with
      | Some t => ins <~ lift (get_source_inputs t) ;; ret (inr ins)
      | None => ret (inl img_input)
      end ;;
    model <~ lift (Model inputs x (_get_name blocks)) ;;
    match weights with
    | Some path => lift (load_weights model path)
    | None => ret model
    end.

(** The three public constructors; [weights] defaults to ["imagenet"],
    [input_shape] to [(None, None, 3)], [include_top] to [True]. *)
Definition DenseNet121 (include_preprocessing include_top : bool)
    (weights : option string) (input_tensor : option KTensor)
    (input_shape : list (option Z)) (pooling : option string) (classes : Z)
    (classifier_activation : option string) : io KModel :=
  DenseNet [6; 12; 24; 16]%Z include_preprocessing include_top weights
    input_tensor input_shape pooling classes classifier_activation.

Definition DenseNet169 (include_preprocessing include_top : bool)
    (weights : option string) (input_tensor : option KTensor)
    (input_shape : list (option Z)) (pooling : option string) (classes : Z)
    (classifier_activation : option string) : io KModel :=
  DenseNet [6; 12; 32; 32]%Z include_preprocessing include_top weights
    input_tensor input_shape pooling classes classifier_activation.

Definition DenseNet201 (include_preprocessing include_top : bool)
    (weights : option string) (input_tensor : option KTensor)
    (input_shape : list (option Z)) (pooling : option string) (classes : Z)
    (classifier_activation : option string) : io KModel :=
  DenseNet [6; 12; 48; 32]%Z include_preprocessing include_top weights
    input_tensor input_shape pooling classes classifier_activation.

End Assembler.

Definition default_weights : option string := Some "imagenet".
Definition default_input_shape : list (option Z) := [None; None; Some 3%Z].

(** The size of the channel axis of a tensor, as the assembler reads it:
    [backend.int_shape(x)[BN_AXIS]]. *)
Definition channels {K : Keras} (x : KTensor) : option (option Z) :=
  nth_error (int_shape x) (Z.to_nat BN_AXIS).


(** The layers that keep the channel axis as it is. *)
Definition keeps_channels (l : layer) : bool :=
  match l with
  | BatchNormalization _ _ _ | Activation _ _ | AveragePooling2D _ _ _
  | MaxPooling2D _ _ _ | ZeroPadding2D _ | Rescaling _ => true
  | _ => false
  end.

(** A small framework that follows the channel axis only: a tensor is its
    number of channels, no weights file exists, a model is the channels of
    its output with its name. *)
Definition channel_call (l : layer) (xs : list Z) : outcome Z :=
  match l, xs with
  | Conv2D filters _ _ _ _ _, [_] => Returns filters
  | Dense units _ _, [_] => Returns units
  | Concatenate _ _, [a; b] => Returns (a + b)%Z
  | Concatenate _ _, _ => Raises (PyValueError "Concatenate takes two tensors")
  | _, [x] => Returns x
  | _, _ => Raises (PyValueError "a layer takes one tensor")
  end.

Definition channel_keras : Keras := {|
  KTensor := Z;
  KModel := (Z * string)%type;
  gfile_exists := fun _ => false;
  Input := fun shape tensor =>
    match tensor, nth_error shape 2 with
    | Some t, _ => Returns t
    | None, Some (Some c) => Returns c
    | None, _ => Raises (PyValueError "the channels of the input are unknown")
    end;
  is_keras_tensor := fun _ => true;
  call := channel_call;
  int_shape := fun c => [None; None; None; Some c];
  str_shape := fun c => ("(None, None, None, " ++ str_int c ++ ")")%string;
  get_source_inputs := fun t => Returns [t];
  Model := fun _ x name => Returns (x, name);
  load_weights := fun m _ => Returns m
|}.

End DenseNet.

(** ** The converters *)

Section Converters.

(** [cast dt v]: the value [tf.cast] gives [v] in element type [dt].  It is
    supplied by the framework. *)
Variable cast : dtype -> Qc -> Qc.

(** [tf.cast(boxes, dtype)] *)
Definition tf_cast (boxes : Tensor) (dt : dtype) : Tensor :=
  mkTensor dt (map (map (map (cast dt))) (t_values boxes)).

(** [tf.cast(n, dtype)] of an entry of a shape. *)
Definition tf_cast_dim (n : nat) (dt : dtype) : Qc :=
  cast dt (qz (Z.of_nat n)).

Definition converter := Tensor -> option Images -> result Tensor.

Definition _center_xywh_to_xyxy : converter := fun boxes images =>
  '(x, y, width, height, rest) <- tf_split boxes ;;
  Ok (mkTensor (t_dtype boxes)
        (tf_concat (col_sub x (col_div width two))
                   (col_sub y (col_div height two))
                   (col_add x (col_div width two))
                   (col_add y (col_div height two))
                   rest)).

Definition _xywh_to_xyxy : converter := fun boxes images =>
  '(x, y, width, height, rest) <- tf_split boxes ;;
  Ok (mkTensor (t_dtype boxes)
        (tf_concat x y (col_add x width) (col_add y height) rest)).

Definition _xyxy_no_op : converter := fun boxes images => Ok boxes.

Definition _xyxy_to_xywh : converter := fun boxes images =>
  '(left_, top, right_, bottom, rest) <- tf_split boxes ;;
  Ok (mkTensor (t_dtype boxes)
        (tf_concat left_ top (col_sub right_ left_) (col_sub bottom top) rest)).

Definition _xyxy_to_center_xywh : converter := fun boxes images =>
  '(left_, top, right_, bottom, rest) <- tf_split boxes ;;
  Ok (mkTensor (t_dtype boxes)
        (tf_concat (col_div (col_add left_ right_) two)
                   (col_div (col_add top bottom) two)
                   (col_sub right_ left_)
                   (col_sub bottom top)
                   rest)).

Definition _rel_xyxy_to_xyxy : converter := fun boxes images =>
  match images with
  | None => Raise RequiresImagesException
  | Some images =>
      let shape := tf_shape images in
      let height := nth 1 shape 0%nat in
      let width := nth 2 shape 0%nat in
      let height := tf_cast_dim height (t_dtype boxes) in
      let width := tf_cast_dim width (t_dtype boxes) in
      '(left_, top, right_, bottom, rest) <- tf_split boxes ;;
      let left_ := col_mul left_ width in
      let right_ := col_mul right_ width in
      let top := col_mul top height in
      let bottom := col_mul bottom height in
      Ok (mkTensor (t_dtype boxes) (tf_concat left_ top right_ bottom rest))
  end.

Definition _xyxy_to_rel_xyxy : converter := fun boxes images =>
  match images with
  | None => Raise RequiresImagesException
  | Some images =>
      let shape := tf_shape images in
      let height := nth 1 shape 0%nat in
      let width := nth 2 shape 0%nat in
      let height := tf_cast_dim height (t_dtype boxes) in
      let width := tf_cast_dim width (t_dtype boxes) in
      '(left_, top, right_, bottom, rest) <- tf_split boxes ;;
      let left_ := col_div left_ width in
      let right_ := col_div right_ width in
      let top := col_div top height in
      let bottom := col_div bottom height in
      Ok (mkTensor (t_dtype boxes) (tf_concat left_ top right_ bottom rest))
  end.

Definition TO_XYXY_CONVERTERS : dict converter :=
  [ ("xywh", _xywh_to_xyxy);
    ("center_xywh", _center_xywh_to_xyxy);
    ("xyxy", _xyxy_no_op);
    ("rel_xyxy", _rel_xyxy_to_xyxy) ].

Definition FROM_XYXY_CONVERTERS : dict converter :=
  [ ("xywh", _xyxy_to_xywh);
    ("center_xywh", _xyxy_to_center_xywh);
    ("xyxy", _xyxy_no_op);
    ("rel_xyxy", _xyxy_to_rel_xyxy) ].

(** The messages of the three [ValueError]s of [convert_format]. *)
Definition unsupported_source_msg (source : string) : string :=
  "`convert_format()` received an unsupported format for the argument "
  ++ "`source`.  `source` should be one of "
  ++ str_dict_keys TO_XYXY_CONVERTERS ++ ". "
  ++ "Got source=" ++ source.

Definition unsupported_target_msg (target : string) : string :=
  "`convert_format()` received an unsupported format for the argument "
  ++ "`target`.  `target` should be one of "
  ++ str_dict_keys FROM_XYXY_CONVERTERS ++ ". "
  ++ "Got target=" ++ target.

(** In the source the two placeholders of this message name python's builtin
    [format], and [images] is [None] whenever the handler runs. *)
Definition requires_images_msg : string :=
  "convert_format() must receive `images` when transforming "
  ++ "between relative and absolute formats."
  ++ "convert_format() received source=`<built-in function format>`, "
  ++ "target=`<built-in function format>, "
  ++ "but images=None".

(** [try: ... except RequiresImagesException: raise ValueError(...)] *)
Definition except_RequiresImagesException {A : Type} (body : result A)
  : result A :=
  match body with
  | Raise RequiresImagesException => Raise (ValueError requires_images_msg)
  | r => r
  end.

Definition convert_format (boxes : Tensor) (source target : string)
    (images : option Images) (dt : dtype) : result Tensor :=
  let source := lower source in
  let target := lower target in
  if negb (dict_mem source TO_XYXY_CONVERTERS) then
    Raise (ValueError (unsupported_source_msg source))
  else if negb (dict_mem target FROM_XYXY_CONVERTERS) then
    Raise (ValueError (unsupported_target_msg target))
  else
    let boxes := tf_cast boxes dt in
    if String.eqb source target then Ok boxes
    else
      to_xyxy_fn <- dict_subscript TO_XYXY_CONVERTERS source ;;
      from_xyxy_fn <- dict_subscript FROM_XYXY_CONVERTERS target ;;
      except_RequiresImagesException
        (in_xyxy <- to_xyxy_fn boxes images ;;
         from_xyxy_fn in_xyxy images).

(** The dispatch read as the specification words it: a fixed table over the
    closed set of formats, and the conversion as source -> corner -> target. *)
Definition to_xyxy_table (f : format) : converter :=
  match f with
  | XYWH => _xywh_to_xyxy
  | CENTER_XYWH => _center_xywh_to_xyxy
  | XYXY => _xyxy_no_op
  | REL_XYXY => _rel_xyxy_to_xyxy
  end.

Definition from_xyxy_table (f : format) : converter :=
  match f with
  | XYWH => _xyxy_to_xywh
  | CENTER_XYWH => _xyxy_to_center_xywh
  | XYXY => _xyxy_no_op
  | REL_XYXY => _xyxy_to_rel_xyxy
  end.

Definition pivot (source target : format) (boxes : Tensor)
    (images : option Images) : result Tensor :=
  in_xyxy <- to_xyxy_table source boxes images ;;
  from_xyxy_table target in_xyxy images.

(** The image sizes a converter reads, in the element type [dt]; without
    images no converter that reads them gets that far. *)
Definition image_width (images : option Images) (dt : dtype) : Qc :=
  match images with
  | Some i => tf_cast_dim (img_width i) dt
  | None => zero
  end.

Definition image_height (images : option Images) (dt : dtype) : Qc :=
  match images with
  | Some i => tf_cast_dim (img_height i) dt
  | None => zero
  end.

(** A conversion that cannot run for lack of images. *)
Definition lacks_images (f : format) (images : option Images) : bool :=
  is_relative f && match images with None => true | Some _ => false end.

(** The same function applied to every record of a tensor. *)
Definition convert_records (g : list Qc -> list Qc) (boxes : Tensor) : Tensor :=
  mkTensor (t_dtype boxes) (map (map g) (t_values boxes)).

(** The trailing fields of every record of a tensor. *)
Definition t_payload (boxes : Tensor) : list (list (list Qc)) :=
  map (map trailing) (t_values boxes).

(** A record taken from one format to another through corners. *)
Definition record_convert (source target : format) (w h : Qc) (r : list Qc)
  : list Qc :=
  record_from_xyxy target w h (record_to_xyxy source w h r).

(** The sizes along the last axis, for every box of every image. *)
Definition t_shape (boxes : Tensor) : list (list nat) :=
  map (map (@List.length Qc)) (t_values boxes).

(** [tf.concat([a, b], axis=0)]: the images of [a] followed by those of [b]. *)
Definition concat_batches (a b : Tensor) : Tensor :=
  mkTensor (t_dtype a) (t_values a ++ t_values b).





(** ** Slices of a tensor, record by record *)

Lemma zip_with_map {A B C D : Type} (f : B -> C -> D) (g : A -> B)
    (h : A -> C) (l : list A) :
  zip_with f (map g l) (map h l) = map (fun a => f (g a) (h a)) l.
Proof.
  unfold zip_with.
  induction l as [|a l IH]; simpl; [reflexivity|].
  now rewrite IH.
Qed.

Lemma zip_with_map2 {A B C D : Type} (f : B -> C -> D) (g : A -> B)
    (h : A -> C) (ll : list (list A)) :
  zip_with (zip_with f) (map (map g) ll) (map (map h) ll)
  = map (map (fun a => f (g a) (h a))) ll.
Proof.
  rewrite zip_with_map.
  apply map_ext; intro l; apply zip_with_map.
Qed.

Lemma col_add_map {A : Type} (g h : A -> Qc) (ll : list (list A)) :
  col_add (map (map g) ll) (map (map h) ll)
  = map (map (fun a => (g a + h a)%Qc)) ll.
Proof. apply zip_with_map2. Qed.

Lemma col_sub_map {A : Type} (g h : A -> Qc) (ll : list (list A)) :
  col_sub (map (map g) ll) (map (map h) ll)
  = map (map (fun a => (g a - h a)%Qc)) ll.
Proof. apply zip_with_map2. Qed.

Lemma map_map2 {A B C : Type} (g : A -> B) (f : B -> C) (ll : list (list A)) :
  map (map f) (map (map g) ll) = map (map (fun a => f (g a))) ll.
Proof.
  rewrite map_map. apply map_ext; intro l; apply map_map.
Qed.

Lemma col_mul_map {A : Type} (g : A -> Qc) (s : Qc) (ll : list (list A)) :
  col_mul (map (map g) ll) s = map (map (fun a => (g a * s)%Qc)) ll.
Proof. apply map_map2. Qed.

Lemma col_div_map {A : Type} (g : A -> Qc) (s : Qc) (ll : list (list A)) :
  col_div (map (map g) ll) s = map (map (fun a => (g a / s)%Qc)) ll.
Proof. apply map_map2. Qed.

Lemma tf_concat_map {A : Type} (a b c d : A -> Qc) (rest : A -> list Qc)
    (ll : list (list A)) :
  tf_concat (map (map a) ll) (map (map b) ll) (map (map c) ll)
            (map (map d) ll) (map (map rest) ll)
  = map (map (fun x => concat_record (a x) (b x) (c x) (d x) (rest x))) ll.
Proof.
  unfold tf_concat.
  now rewrite !zip_with_map2.
Qed.

(** [tf.split] goes through exactly on box tensors, and then cuts every
    record into its four coordinates and its trailing fields. *)
Lemma split_record_explode (r : list Qc) :
  (4 <=? List.length r)%nat = true -> split_record r = Ok (explode r).
Proof.
  destruct r as [|a [|b [|c [|d rest]]]]; simpl; try discriminate.
  reflexivity.
Qed.

Lemma split_record_short (r : list Qc) :
  (4 <=? List.length r)%nat = false -> split_record r = Raise InvalidArgumentError.
Proof.
  destruct r as [|a [|b [|c [|d rest]]]]; simpl; try discriminate;
    reflexivity.
Qed.

Lemma mapM_split_record (l : list (list Qc)) :
  mapM split_record l
  = if forallb (fun r => 4 <=? List.length r)%nat l
    then Ok (map explode l) else Raise InvalidArgumentError.
Proof.
  induction l as [|r l IH]; [reflexivity|].
  cbn [mapM forallb map].
  destruct (4 <=? List.length r)%nat eqn:E.
  - rewrite (split_record_explode r E), IH.
    destruct (forallb _ l); reflexivity.
  - now rewrite (split_record_short r E).
Qed.

Lemma mapM_mapM_split_record (ll : list (list (list Qc))) :
  mapM (mapM split_record) ll
  = if forallb (forallb (fun r => 4 <=? List.length r)%nat) ll
    then Ok (map (map explode) ll) else Raise InvalidArgumentError.
Proof.
  induction ll as [|l ll IH]; [reflexivity|].
  cbn [mapM forallb map].
  rewrite mapM_split_record, IH.
  destruct (forallb _ l); [|reflexivity].
  destruct (forallb _ ll); reflexivity.
Qed.

Lemma tf_split_box_tensor (boxes : Tensor) :
  is_box_tensor boxes = true ->
  tf_split boxes
  = Ok (map (map field0) (t_values boxes), map (map field1) (t_values boxes),
        map (map field2) (t_values boxes), map (map field3) (t_values boxes),
        map (map trailing) (t_values boxes)).
Proof.
  unfold is_box_tensor, tf_split; intro H.
  rewrite mapM_mapM_split_record, H; simpl.
  now rewrite !map_map2.
Qed.

Lemma tf_split_not_box_tensor (boxes : Tensor) :
  is_box_tensor boxes = false -> tf_split boxes = Raise InvalidArgumentError.
Proof.
  unfold is_box_tensor, tf_split; intro H.
  now rewrite mapM_mapM_split_record, H.
Qed.

(** ** What each converter computes *)

Lemma convert_records_id (boxes : Tensor) :
  convert_records (fun r => r) boxes = boxes.
Proof.
  destruct boxes as [dt v]; unfold convert_records; simpl.
  f_equal.
  rewrite <- (map_id v) at 2.
  apply map_ext; intro l; apply map_id.
Qed.

Ltac split_boxes boxes :=
  let E := fresh "E" in
  destruct (is_box_tensor boxes) eqn:E;
  [ rewrite (tf_split_box_tensor boxes E); cbn [bind];
    rewrite ?col_add_map, ?col_sub_map, ?col_mul_map, ?col_div_map;
    rewrite ?col_add_map, ?col_sub_map, ?col_mul_map, ?col_div_map;
    rewrite tf_concat_map; reflexivity
  | rewrite (tf_split_not_box_tensor boxes E); reflexivity ].

Lemma to_xyxy_table_eq (f : format) (boxes : Tensor) (images : option Images) :
  to_xyxy_table f boxes images
  = if lacks_images f images then Raise RequiresImagesException
    else if format_eqb f XYXY || is_box_tensor boxes
    then Ok (convert_records
               (record_to_xyxy f (image_width images (t_dtype boxes))
                                 (image_height images (t_dtype boxes))) boxes)
    else Raise InvalidArgumentError.
Proof.
  destruct f; cbn [to_xyxy_table lacks_images is_relative format_eqb andb orb].
  - unfold _xywh_to_xyxy. split_boxes boxes.
  - unfold _center_xywh_to_xyxy. split_boxes boxes.
  - unfold _xyxy_no_op. cbn [record_to_xyxy].
    now rewrite convert_records_id.
  - destruct images as [i|]; [|reflexivity].
    unfold _rel_xyxy_to_xyxy.
    cbn [tf_shape nth image_width image_height]. split_boxes boxes.
Qed.

Lemma from_xyxy_table_eq (f : format) (boxes : Tensor) (images : option Images) :
  from_xyxy_table f boxes images
  = if lacks_images f images then Raise RequiresImagesException
    else if format_eqb f XYXY || is_box_tensor boxes
    then Ok (convert_records
               (record_from_xyxy f (image_width images (t_dtype boxes))
                                   (image_height images (t_dtype boxes))) boxes)
    else Raise InvalidArgumentError.
Proof.
  destruct f; cbn [from_xyxy_table lacks_images is_relative format_eqb andb orb].
  - unfold _xyxy_to_xywh. split_boxes boxes.
  - unfold _xyxy_to_center_xywh. split_boxes boxes.
  - unfold _xyxy_no_op. cbn [record_from_xyxy].
    now rewrite convert_records_id.
  - destruct images as [i|]; [|reflexivity].
    unfold _xyxy_to_rel_xyxy.
    cbn [tf_shape nth image_width image_height]. split_boxes boxes.
Qed.

(** ** Format identifiers and the two dictionaries *)

Lemma lower_ascii_idempotent (c : ascii) :
  lower_ascii (lower_ascii c) = lower_ascii c.
Proof.
  destruct c as [[] [] [] [] [] [] [] []]; reflexivity.
Qed.

Lemma lower_idempotent (s : string) : lower (lower s) = lower s.
Proof.
  induction s as [|c s IH]; simpl; [reflexivity|].
  now rewrite lower_ascii_idempotent, IH.
Qed.

Lemma lower_format_name (f : format) : lower (format_name f) = format_name f.
Proof. destruct f; reflexivity. Qed.

Lemma format_name_inj (f g : format) :
  format_name f = format_name g -> f = g.
Proof. destruct f, g; simpl; intro H; try reflexivity; discriminate H. Qed.

Lemma format_name_eqb (f g : format) :
  String.eqb (format_name f) (format_name g) = format_eqb f g.
Proof. destruct f, g; reflexivity. Qed.

Lemma format_eqb_eq (f g : format) : format_eqb f g = true <-> f = g.
Proof. destruct f, g; simpl; split; intro H; congruence. Qed.

Lemma format_eqb_neq (f g : format) : format_eqb f g = false <-> f <> g.
Proof. destruct f, g; simpl; split; intro H; congruence. Qed.

(** Both dictionaries have the names of the four formats as their keys. *)
Lemma TO_XYXY_CONVERTERS_get (s : string) :
  dict_get s TO_XYXY_CONVERTERS
  = if String.eqb s "xywh" then Some _xywh_to_xyxy
    else if String.eqb s "center_xywh" then Some _center_xywh_to_xyxy
    else if String.eqb s "xyxy" then Some _xyxy_no_op
    else if String.eqb s "rel_xyxy" then Some _rel_xyxy_to_xyxy
    else None.
Proof. reflexivity. Qed.

Lemma FROM_XYXY_CONVERTERS_get (s : string) :
  dict_get s FROM_XYXY_CONVERTERS
  = if String.eqb s "xywh" then Some _xyxy_to_xywh
    else if String.eqb s "center_xywh" then Some _xyxy_to_center_xywh
    else if String.eqb s "xyxy" then Some _xyxy_no_op
    else if String.eqb s "rel_xyxy" then Some _xyxy_to_rel_xyxy
    else None.
Proof. reflexivity. Qed.

Lemma TO_XYXY_CONVERTERS_format (f : format) :
  dict_get (format_name f) TO_XYXY_CONVERTERS = Some (to_xyxy_table f).
Proof. destruct f; reflexivity. Qed.

Lemma FROM_XYXY_CONVERTERS_format (f : format) :
  dict_get (format_name f) FROM_XYXY_CONVERTERS = Some (from_xyxy_table f).
Proof. destruct f; reflexivity. Qed.

(** A string is a key exactly when it is the name of a format. *)
Lemma TO_XYXY_CONVERTERS_mem (s : string) :
  dict_mem s TO_XYXY_CONVERTERS = true <-> exists f, s = format_name f.
Proof.
  unfold dict_mem; rewrite TO_XYXY_CONVERTERS_get.
  split.
  - intro H.
    destruct (String.eqb_spec s "xywh") as [E1|E1];
      [exists XYWH; exact E1|].
    destruct (String.eqb_spec s "center_xywh") as [E2|E2];
      [exists CENTER_XYWH; exact E2|].
    destruct (String.eqb_spec s "xyxy") as [E3|E3];
      [exists XYXY; exact E3|].
    destruct (String.eqb_spec s "rel_xyxy") as [E4|E4];
      [exists REL_XYXY; exact E4|].
    discriminate H.
  - intros [f ->]. destruct f; reflexivity.
Qed.

Lemma FROM_XYXY_CONVERTERS_mem (s : string) :
  dict_mem s FROM_XYXY_CONVERTERS = dict_mem s TO_XYXY_CONVERTERS.
Proof.
  unfold dict_mem.
  rewrite TO_XYXY_CONVERTERS_get, FROM_XYXY_CONVERTERS_get.
  repeat destruct (String.eqb s _); reflexivity.
Qed.

(** [convert_format] on the names of two formats. *)
Lemma convert_format_names (boxes : Tensor) (source target : format)
    (images : option Images) (dt : dtype) :
  convert_format boxes (format_name source) (format_name target) images dt
  = if format_eqb source target then Ok (tf_cast boxes dt)
    else except_RequiresImagesException
           (pivot source target (tf_cast boxes dt) images).
Proof.
  unfold convert_format, dict_mem, dict_subscript.
  rewrite !lower_format_name.
  rewrite TO_XYXY_CONVERTERS_format, FROM_XYXY_CONVERTERS_format.
  cbn [negb bind].
  now rewrite format_name_eqb.
Qed.

Lemma convert_format_lower (boxes : Tensor) (source target : string)
    (images : option Images) (dt : dtype) :
  convert_format boxes source target images dt
  = convert_format boxes (lower source) (lower target) images dt.
Proof.
  unfold convert_format. now rewrite !lower_idempotent.
Qed.

Lemma except_RequiresImagesException_Ok {A : Type} (body : result A) (a : A) :
  except_RequiresImagesException body = Ok a <-> body = Ok a.
Proof.
  destruct body as [x|[]]; simpl; split; intro H;
    solve [exact H | discriminate H].
Qed.

Lemma is_box_tensor_tf_cast (boxes : Tensor) (dt : dtype) :
  is_box_tensor (tf_cast boxes dt) = is_box_tensor boxes.
Proof.
  unfold is_box_tensor, tf_cast; cbn [t_values].
  induction (t_values boxes) as [|l ll IH]; [reflexivity|].
  cbn [map forallb]. rewrite IH. f_equal.
  clear IH. induction l as [|r l IH]; [reflexivity|].
  cbn [map forallb]. now rewrite IH, length_map.
Qed.

(** ** The converters on one record *)

Lemma trailing_record_to_xyxy (f : format) (w h : Qc) (r : list Qc) :
  trailing (record_to_xyxy f w h r) = trailing r.
Proof. destruct f; reflexivity. Qed.

Lemma trailing_record_from_xyxy (f : format) (w h : Qc) (r : list Qc) :
  trailing (record_from_xyxy f w h r) = trailing r.
Proof. destruct f; reflexivity. Qed.

Lemma length_record_to_xyxy (f : format) (w h : Qc) (r : list Qc) :
  (4 <=? List.length r)%nat = true ->
  (4 <=? List.length (record_to_xyxy f w h r))%nat = true.
Proof. destruct f; intro H; solve [exact H | reflexivity]. Qed.

Lemma length_record_from_xyxy (f : format) (w h : Qc) (r : list Qc) :
  (4 <=? List.length r)%nat = true ->
  (4 <=? List.length (record_from_xyxy f w h r))%nat = true.
Proof. destruct f; intro H; solve [exact H | reflexivity]. Qed.

Lemma qz_neq_0 (n : nat) : (0 < n)%nat -> qz (Z.of_nat n) <> 0%Qc.
Proof.
  intros Hn H. unfold qz in H. apply Q2Qc_eq_iff in H.
  unfold Qeq in H; simpl in H. lia.
Qed.

Lemma two_eq : two = (1 + 1)%Qc.
Proof. apply Qc_is_canon. reflexivity. Qed.

Ltac qc_coordinates :=
  rewrite ?two_eq;
  repeat match goal with
         | |- @eq Qc _ _ => field; try assumption; try discriminate
         | |- cons _ _ = cons _ _ => apply f_equal2
         | |- @eq (list Qc) ?l ?l => reflexivity
         end.

Ltac unfold_record :=
  unfold record_to_xyxy, record_from_xyxy, concat_record,
    field0, field1, field2, field3, trailing;
  cbn [nth skipn].

(** From corners to a format and back to corners, and the other way round. *)
Lemma record_to_from_xyxy (f : format) (w h : Qc) (r : list Qc) :
  w <> 0%Qc -> h <> 0%Qc -> (4 <=? List.length r)%nat = true ->
  record_to_xyxy f w h (record_from_xyxy f w h r) = r.
Proof.
  intros Hw Hh Hr.
  destruct r as [|a [|b [|c [|d rest]]]]; try discriminate Hr.
  destruct f; try reflexivity; unfold_record; qc_coordinates.
Qed.

Lemma record_from_to_xyxy (f : format) (w h : Qc) (r : list Qc) :
  w <> 0%Qc -> h <> 0%Qc -> (4 <=? List.length r)%nat = true ->
  record_from_xyxy f w h (record_to_xyxy f w h r) = r.
Proof.
  intros Hw Hh Hr.
  destruct r as [|a [|b [|c [|d rest]]]]; try discriminate Hr.
  destruct f; try reflexivity; unfold_record; qc_coordinates.
Qed.

(** ** The converters on a whole tensor *)

Lemma convert_records_compose (g g' : list Qc -> list Qc) (boxes : Tensor) :
  convert_records g' (convert_records g boxes)
  = convert_records (fun r => g' (g r)) boxes.
Proof.
  unfold convert_records; cbn [t_dtype t_values].
  now rewrite map_map2.
Qed.

Lemma is_box_tensor_convert_records (g : list Qc -> list Qc) (boxes : Tensor) :
  (forall r, (4 <=? List.length r)%nat = true ->
             (4 <=? List.length (g r))%nat = true) ->
  is_box_tensor boxes = true ->
  is_box_tensor (convert_records g boxes) = true.
Proof.
  intros Hg. unfold is_box_tensor, convert_records; cbn [t_values].
  rewrite !forallb_forall. intros H l' Hl'.
  apply in_map_iff in Hl'. destruct Hl' as [l [<- Hl]].
  specialize (H l Hl). rewrite forallb_forall in *.
  intros r' Hr'. apply in_map_iff in Hr'. destruct Hr' as [r [<- Hr]].
  apply Hg, H, Hr.
Qed.

Lemma map_records_id (g : list Qc -> list Qc) (ll : list (list (list Qc))) :
  (forall r, (4 <=? List.length r)%nat = true -> g r = r) ->
  forallb (forallb (fun r => 4 <=? List.length r)%nat) ll = true ->
  map (map g) ll = ll.
Proof.
  intros Hg H. rewrite forallb_forall in H.
  rewrite <- (map_id ll) at 2.
  apply map_ext_in. intros l Hl.
  specialize (H l Hl). rewrite forallb_forall in H.
  rewrite <- (map_id l) at 2.
  apply map_ext_in. intros r Hr. apply Hg, H, Hr.
Qed.

Lemma t_payload_convert_records (g : list Qc -> list Qc) (boxes : Tensor) :
  (forall r, trailing (g r) = trailing r) ->
  t_payload (convert_records g boxes) = t_payload boxes.
Proof.
  intro Hg. unfold t_payload, convert_records; cbn [t_values].
  rewrite map_map2.
  apply map_ext; intro l. apply map_ext; intro r. apply Hg.
Qed.

Lemma t_payload_tf_cast (boxes : Tensor) (dt : dtype) :
  t_payload (tf_cast boxes dt) = map (map (map (cast dt))) (t_payload boxes).
Proof.
  unfold t_payload, tf_cast; cbn [t_values].
  rewrite !map_map2.
  apply map_ext; intro l. apply map_ext; intro r.
  unfold trailing. apply skipn_map.
Qed.

Lemma tf_cast_exact (boxes : Tensor) (dt : dtype) :
  (forall v, cast dt v = v) -> tf_cast boxes dt = mkTensor dt (t_values boxes).
Proof.
  intro H. unfold tf_cast. f_equal.
  rewrite <- (map_id (t_values boxes)) at 2.
  apply map_ext; intro l. rewrite <- (map_id l) at 2.
  apply map_ext; intro r. rewrite <- (map_id r) at 2.
  apply map_ext; exact H.
Qed.

(** The corner pivot when nothing is missing: the two record functions, one
    after the other, on every record. *)
Lemma pivot_box_tensor (source target : format) (boxes : Tensor) (i : Images) :
  is_box_tensor boxes = true ->
  pivot source target boxes (Some i)
  = Ok (convert_records
          (fun r =>
             record_from_xyxy target
               (tf_cast_dim (img_width i) (t_dtype boxes))
               (tf_cast_dim (img_height i) (t_dtype boxes))
               (record_to_xyxy source
                  (tf_cast_dim (img_width i) (t_dtype boxes))
                  (tf_cast_dim (img_height i) (t_dtype boxes)) r))
          boxes).
Proof.
  intro Hbox. unfold pivot.
  rewrite to_xyxy_table_eq.
  replace (lacks_images source (Some i)) with false
    by (destruct source; reflexivity).
  rewrite Hbox, orb_true_r. cbn [bind].
  rewrite from_xyxy_table_eq.
  replace (lacks_images target (Some i)) with false
    by (destruct target; reflexivity).
  rewrite is_box_tensor_convert_records, orb_true_r;
    [| intros r Hr; now apply length_record_to_xyxy | exact Hbox].
  now rewrite convert_records_compose.
Qed.

(** Whatever the pivot returns, it is the two record functions on every
    record, for some image sizes. *)
Lemma pivot_Ok (source target : format) (boxes r : Tensor)
    (images : option Images) :
  pivot source target boxes images = Ok r ->
  exists w h : Qc,
    r = convert_records
          (fun x => record_from_xyxy target w h (record_to_xyxy source w h x))
          boxes.
Proof.
  unfold pivot. rewrite to_xyxy_table_eq.
  destruct (lacks_images source images); [discriminate|].
  destruct (format_eqb source XYXY || is_box_tensor boxes); [|discriminate].
  cbn [bind]. rewrite from_xyxy_table_eq.
  destruct (lacks_images target images); [discriminate|].
  destruct (format_eqb target XYXY || is_box_tensor _); [|discriminate].
  intro H. injection H as <-.
  rewrite convert_records_compose.
  now exists (image_width images (t_dtype boxes)),
             (image_height images (t_dtype boxes)).
Qed.

(** ** Text of the error messages *)

Lemma string_app_assoc (a b c : string) :
  ((a ++ b) ++ c)%string = (a ++ (b ++ c))%string.
Proof.
  induction a as [|x a IH]; simpl; [reflexivity|].
  now rewrite IH.
Qed.

Lemma string_app_nil_r (a : string) : (a ++ "")%string = a.
Proof.
  induction a as [|x a IH]; simpl; [reflexivity|].
  now rewrite IH.
Qed.

Lemma occurs_in_refl (n : string) : occurs_in n n.
Proof.
  exists "", "". simpl. now rewrite string_app_nil_r.
Qed.

Lemma occurs_in_app_l (n t a : string) :
  occurs_in n t -> occurs_in n (a ++ t)%string.
Proof.
  intros [u [v ->]]. exists (a ++ u)%string, v.
  now rewrite string_app_assoc.
Qed.

Lemma occurs_in_app_r (n t b : string) :
  occurs_in n t -> occurs_in n (t ++ b)%string.
Proof.
  intros [u [v ->]]. exists u, (v ++ b)%string.
  now rewrite !string_app_assoc.
Qed.

Lemma occurs_in_concat (sep k : string) (l : list string) :
  In k l -> occurs_in k (String.concat sep l).
Proof.
  induction l as [|x l IH]; [intros []|].
  intros [->|H].
  - destruct l as [|y l]; cbn [String.concat].
    + apply occurs_in_refl.
    + apply occurs_in_app_r, occurs_in_refl.
  - destruct l as [|y l]; [destruct H|].
    cbn [String.concat].
    apply occurs_in_app_l, occurs_in_app_l, IH, H.
Qed.

Lemma occurs_in_str_dict_keys {V : Type} (d : dict V) (k : string) :
  In k (dict_keys d) -> occurs_in k (str_dict_keys d).
Proof.
  intro H. unfold str_dict_keys.
  apply occurs_in_app_l, occurs_in_app_r.
  destruct
    (occurs_in_concat ", " (repr_str k) (map repr_str (dict_keys d))
       (in_map repr_str _ _ H)) as [u [v E]].
  rewrite E. unfold repr_str.
  exists (u ++ "'")%string, ("'" ++ v)%string.
  now rewrite !string_app_assoc.
Qed.

Lemma format_name_in_keys (f : format) :
  In (format_name f) (dict_keys TO_XYXY_CONVERTERS)
  /\ In (format_name f) (dict_keys FROM_XYXY_CONVERTERS).
Proof. destruct f; simpl; tauto. Qed.

Lemma unsupported_source_msg_names (s : string) (f : format) :
  occurs_in (format_name f) (unsupported_source_msg s).
Proof.
  unfold unsupported_source_msg.
  apply occurs_in_app_l, occurs_in_app_l, occurs_in_app_r.
  apply occurs_in_str_dict_keys, format_name_in_keys.
Qed.

Lemma unsupported_target_msg_names (s : string) (f : format) :
  occurs_in (format_name f) (unsupported_target_msg s).
Proof.
  unfold unsupported_target_msg.
  apply occurs_in_app_l, occurs_in_app_l, occurs_in_app_r.
  apply occurs_in_str_dict_keys, format_name_in_keys.
Qed.

Lemma requires_images_msg_distinct (s : string) :
  requires_images_msg <> unsupported_source_msg s
  /\ requires_images_msg <> unsupported_target_msg s.
Proof.
  split; intro H; discriminate H.
Qed.

Lemma not_a_format_mem (s : string) :
  (forall f, s <> format_name f) -> dict_mem s TO_XYXY_CONVERTERS = false.
Proof.
  intro H.
  destruct (dict_mem s TO_XYXY_CONVERTERS) eqn:E; [|reflexivity].
  apply TO_XYXY_CONVERTERS_mem in E. destruct E as [f E].
  now destruct (H f).
Qed.

Lemma convert_format_Ok (boxes : Tensor) (source target : string)
    (images : option Images) (dt : dtype) (r : Tensor) :
  convert_format boxes source target images dt = Ok r ->
  exists f g : format,
    lower source = format_name f /\ lower target = format_name g.
Proof.
  unfold convert_format.
  destruct (dict_mem (lower source) TO_XYXY_CONVERTERS) eqn:Es;
    cbn [negb]; [|discriminate].
  rewrite FROM_XYXY_CONVERTERS_mem.
  destruct (dict_mem (lower target) TO_XYXY_CONVERTERS) eqn:Et;
    cbn [negb]; [|discriminate].
  intros _.
  apply TO_XYXY_CONVERTERS_mem in Es, Et.
  destruct Es as [f Es], Et as [g Et]. now exists f, g.
Qed.

(** On a box tensor, with images at hand, [convert_format] returns a result
    for every pair of formats. *)
Lemma convert_format_box_tensor (boxes : Tensor) (source target : format)
    (i : Images) (dt : dtype) :
  is_box_tensor boxes = true ->
  exists r : Tensor,
    convert_format boxes (format_name source) (format_name target) (Some i) dt
    = Ok r.
Proof.
  intro Hbox. rewrite convert_format_names.
  destruct (format_eqb source target); [now eexists|].
  rewrite pivot_box_tensor by now rewrite is_box_tensor_tf_cast.
  now eexists.
Qed.

(** ** Properties of [convert_format] *)

(** C5. Converting a box tensor from a supported format to that same format
    returns the boxes as [tf.cast] to the requested dtype leaves them, whatever
    the images: a no-op that still applies the cast. *)
Theorem convert_format_same_format (boxes : Tensor) (f : format)
    (images : option Images) (dt : dtype) :
  convert_format boxes (format_name f) (format_name f) images dt
  = Ok (tf_cast boxes dt).
Proof.
  rewrite convert_format_names.
  now replace (format_eqb f f) with true by (destruct f; reflexivity).
Qed.

(** C10. When source equals target, the relative format included,
    [convert_format] without images returns the cast boxes and raises nothing:
    the shortcut is taken before any converter could ask for the images. *)
Theorem convert_format_same_format_no_images (boxes : Tensor) (dt : dtype) :
  (forall f : format,
     convert_format boxes (format_name f) (format_name f) None dt
     = Ok (tf_cast boxes dt))
  /\ convert_format boxes "rel_xyxy" "rel_xyxy" None dt = Ok (tf_cast boxes dt).
Proof.
  split.
  - intro f. rewrite convert_format_names.
    destruct f; reflexivity.
  - exact (convert_format_names boxes REL_XYXY REL_XYXY None dt).
Qed.

(** C9. Format identifiers are case-insensitive: with any capitalisation of
    the names of a supported source and target, [convert_format] returns the
    result, or raises the error, of the call with the lower-case names. *)
Theorem convert_format_case_insensitive (boxes : Tensor)
    (source target : string) (f g : format) (images : option Images)
    (dt : dtype) :
  lower source = format_name f ->
  lower target = format_name g ->
  convert_format boxes source target images dt
  = convert_format boxes (format_name f) (format_name g) images dt.
Proof.
  intros Hs Ht.
  rewrite convert_format_lower. now rewrite Hs, Ht.
Qed.

(** C4. Between two distinct supported formats [convert_format] is the
    composition of the source's converter to corners with the target's
    converter from corners, both looked up by name and applied to the cast
    boxes; the only thing done to the outcome of the composition is that the
    internal [RequiresImagesException] is re-raised as a [ValueError]. *)
Theorem convert_format_pivots (boxes : Tensor) (source target : format)
    (images : option Images) (dt : dtype) :
  source <> target ->
  dict_subscript TO_XYXY_CONVERTERS (format_name source)
    = Ok (to_xyxy_table source)
  /\ dict_subscript FROM_XYXY_CONVERTERS (format_name target)
    = Ok (from_xyxy_table target)
  /\ convert_format boxes (format_name source) (format_name target) images dt
     = except_RequiresImagesException
         (in_xyxy <- to_xyxy_table source (tf_cast boxes dt) images ;;
          from_xyxy_table target in_xyxy images)
  /\ (forall r : Tensor,
        pivot source target (tf_cast boxes dt) images = Ok r <->
        convert_format boxes (format_name source) (format_name target)
          images dt = Ok r).
Proof.
  intro Hne. apply format_eqb_neq in Hne.
  unfold dict_subscript.
  rewrite TO_XYXY_CONVERTERS_format, FROM_XYXY_CONVERTERS_format.
  rewrite convert_format_names, Hne.
  repeat split; try reflexivity;
    apply except_RequiresImagesException_Ok.
Qed.

(** C6. A source or target that, lower-cased, is none of the four format
    names makes [convert_format] fail at once, whatever the boxes and images,
    with a [ValueError] whose message is the one for the offending argument
    and spells out every valid format name. *)
Theorem convert_format_unsupported_format (boxes : Tensor)
    (source target : string) (images : option Images) (dt : dtype) :
  (forall f, lower source <> format_name f)
  \/ (forall f, lower target <> format_name f) ->
  exists msg : string,
    convert_format boxes source target images dt = Raise (ValueError msg)
    /\ (msg = unsupported_source_msg (lower source)
        \/ msg = unsupported_target_msg (lower target))
    /\ (forall f, occurs_in (format_name f) msg)
    /\ ((forall f, lower source <> format_name f) ->
        msg = unsupported_source_msg (lower source)).
Proof.
  intro H. unfold convert_format.
  destruct (dict_mem (lower source) TO_XYXY_CONVERTERS) eqn:Es; cbn [negb].
  - destruct H as [H|H].
    + rewrite (not_a_format_mem _ H) in Es. discriminate Es.
    + rewrite FROM_XYXY_CONVERTERS_mem, (not_a_format_mem _ H). cbn [negb].
      exists (unsupported_target_msg (lower target)).
      repeat split.
      * now right.
      * apply unsupported_target_msg_names.
      * intro Hs. rewrite (not_a_format_mem _ Hs) in Es. discriminate Es.
  - exists (unsupported_source_msg (lower source)).
    repeat split.
    + now left.
    + apply unsupported_source_msg_names.
Qed.

(** C3 (amended). For two distinct formats of which one is the relative
    format, [convert_format] on a box tensor without images raises the
    [ValueError] that asks for the images, and its message is not that of an
    unsupported format. *)
Theorem convert_format_requires_images (boxes : Tensor) (source target : format)
    (dt : dtype) :
  is_box_tensor boxes = true ->
  source <> target ->
  is_relative source = true \/ is_relative target = true ->
  convert_format boxes (format_name source) (format_name target) None dt
  = Raise (ValueError requires_images_msg)
  /\ (forall s, requires_images_msg <> unsupported_source_msg s
                /\ requires_images_msg <> unsupported_target_msg s).
Proof.
  intros Hbox Hne Hrel.
  split; [|exact requires_images_msg_distinct].
  rewrite convert_format_names.
  apply format_eqb_neq in Hne. rewrite Hne.
  unfold pivot. rewrite to_xyxy_table_eq.
  destruct source; cbn [lacks_images is_relative andb format_eqb orb];
    try reflexivity;
    rewrite ?is_box_tensor_tf_cast, ?Hbox; cbn [bind];
    (destruct target; cbn in Hrel, Hne;
     try discriminate Hne;
     try (destruct Hrel; discriminate);
     reflexivity).
Qed.

(** C2. Whatever [convert_format] returns, between any source and target,
    the trailing fields of every record are those of the input after the
    cast to the requested dtype: only the first four fields are rewritten. *)
Theorem convert_format_keeps_payload (boxes : Tensor) (source target : string)
    (images : option Images) (dt : dtype) (r : Tensor) :
  convert_format boxes source target images dt = Ok r ->
  t_payload r = t_payload (tf_cast boxes dt)
  /\ t_payload r = map (map (map (cast dt))) (t_payload boxes).
Proof.
  intro H.
  rewrite <- t_payload_tf_cast.
  cut (t_payload r = t_payload (tf_cast boxes dt)); [now split|].
  destruct (convert_format_Ok _ _ _ _ _ _ H) as [f [g [Hs Ht]]].
  rewrite convert_format_lower, Hs, Ht, convert_format_names in H.
  destruct (format_eqb f g).
  - now injection H as <-.
  - apply (proj1 (except_RequiresImagesException_Ok _ _)) in H.
    destruct (pivot_Ok _ _ _ _ _ H) as [w [h ->]].
    apply t_payload_convert_records. intro x.
    now rewrite trailing_record_from_xyxy, trailing_record_to_xyxy.
Qed.

(** C1. In exact arithmetic (the cast to the dtype changes no value), for
    every ordered pair of formats, every box tensor and every batch of images
    of positive height and width given to both calls, converting from the
    first format to the second and back succeeds and gives the coordinates
    (and payload) of the original boxes. *)
Theorem convert_format_round_trip (boxes : Tensor) (A B : format)
    (images : Images) (dt : dtype) :
  (forall v, cast dt v = v) ->
  is_box_tensor boxes = true ->
  (0 < img_height images)%nat ->
  (0 < img_width images)%nat ->
  exists there back : Tensor,
    convert_format boxes (format_name A) (format_name B) (Some images) dt
      = Ok there
    /\ convert_format there (format_name B) (format_name A) (Some images) dt
      = Ok back
    /\ t_values back = t_values boxes.
Proof.
  intros Hcast Hbox Hh Hw.
  rewrite convert_format_names.
  destruct (format_eqb A B) eqn:E.
  - apply format_eqb_eq in E. subst B.
    exists (tf_cast boxes dt), (tf_cast (tf_cast boxes dt) dt).
    rewrite convert_format_names.
    replace (format_eqb A A) with true by (destruct A; reflexivity).
    repeat split.
    now rewrite !tf_cast_exact.
  - assert (E' : format_eqb B A = false)
      by (destruct A, B; try reflexivity; discriminate E).
    rewrite (tf_cast_exact boxes dt Hcast).
    rewrite pivot_box_tensor by exact Hbox.
    cbn [t_dtype t_values].
    eexists. eexists. split; [reflexivity|].
    rewrite convert_format_names, E'.
    rewrite (tf_cast_exact _ dt Hcast).
    rewrite pivot_box_tensor.
    2:{ apply (is_box_tensor_convert_records _ (mkTensor dt (t_values boxes)));
          [|exact Hbox].
        intros r Hr.
        now apply length_record_from_xyxy, length_record_to_xyxy. }
    split; [reflexivity|].
    cbn [convert_records t_dtype t_values except_RequiresImagesException].
    rewrite map_map2.
    apply map_records_id; [|exact Hbox].
    unfold tf_cast_dim. rewrite !Hcast.
    intros r Hr.
    pose proof (qz_neq_0 _ Hw) as Hw'. pose proof (qz_neq_0 _ Hh) as Hh'.
    rewrite record_to_from_xyxy;
      [| assumption | assumption | now apply length_record_to_xyxy].
    now apply record_from_to_xyxy.
Qed.

(** ** Further properties of the converters *)

Lemma is_box_tensor_record_to_xyxy (f : format) (w h : Qc) (boxes : Tensor) :
  format_eqb f XYXY || is_box_tensor boxes = true ->
  is_box_tensor (convert_records (record_to_xyxy f w h) boxes)
  = is_box_tensor boxes.
Proof.
  intro H.
  destruct (is_box_tensor boxes) eqn:E.
  - apply is_box_tensor_convert_records; [|exact E].
    intros r Hr. now apply length_record_to_xyxy.
  - destruct f; try discriminate H.
    cbn [record_to_xyxy]. now rewrite convert_records_id.
Qed.

(** Every outcome of the corner pivot. *)
Lemma pivot_eq (source target : format) (boxes : Tensor)
    (images : option Images) :
  pivot source target boxes images
  = if lacks_images source images then Raise RequiresImagesException
    else if format_eqb source XYXY || is_box_tensor boxes then
      if lacks_images target images then Raise RequiresImagesException
      else if format_eqb target XYXY || is_box_tensor boxes then
        Ok (convert_records
              (record_convert source target
                 (image_width images (t_dtype boxes))
                 (image_height images (t_dtype boxes))) boxes)
      else Raise InvalidArgumentError
    else Raise InvalidArgumentError.
Proof.
  unfold pivot. rewrite to_xyxy_table_eq.
  destruct (lacks_images source images); [reflexivity|].
  destruct (format_eqb source XYXY || is_box_tensor boxes) eqn:E;
    [|reflexivity].
  cbn [bind]. rewrite from_xyxy_table_eq.
  destruct (lacks_images target images); [reflexivity|].
  rewrite (is_box_tensor_record_to_xyxy _ _ _ _ E).
  destruct (format_eqb target XYXY || is_box_tensor boxes); [|reflexivity].
  now rewrite convert_records_compose.
Qed.

Lemma distinct_formats_split (source target : format) (b : bool) :
  format_eqb source target = false ->
  (format_eqb source XYXY || b) && (format_eqb target XYXY || b) = b.
Proof. destruct source, target, b; intro H; try reflexivity; discriminate H. Qed.

Lemma length_record_convert (source target : format) (w h : Qc)
    (r : list Qc) :
  (4 <=? List.length r)%nat = true ->
  List.length (record_convert source target w h r) = List.length r.
Proof.
  intro Hr. destruct r as [|a [|b [|c [|d rest]]]]; try discriminate Hr.
  destruct source, target; reflexivity.
Qed.

Lemma record_to_xyxy_absolute (f : format) (w h w' h' : Qc) (r : list Qc) :
  is_relative f = false -> record_to_xyxy f w h r = record_to_xyxy f w' h' r.
Proof. destruct f; intro H; try reflexivity; discriminate H. Qed.

Lemma record_from_xyxy_absolute (f : format) (w h w' h' : Qc) (r : list Qc) :
  is_relative f = false ->
  record_from_xyxy f w h r = record_from_xyxy f w' h' r.
Proof. destruct f; intro H; try reflexivity; discriminate H. Qed.

Lemma convert_records_ext (g g' : list Qc -> list Qc) (boxes : Tensor) :
  (forall r, g r = g' r) -> convert_records g boxes = convert_records g' boxes.
Proof.
  intro H. unfold convert_records. f_equal.
  apply map_ext; intro l. apply map_ext; exact H.
Qed.

Lemma map_records_ext_box (g g' : list Qc -> list Qc)
    (ll : list (list (list Qc))) :
  (forall r, (4 <=? List.length r)%nat = true -> g r = g' r) ->
  forallb (forallb (fun r => 4 <=? List.length r)%nat) ll = true ->
  map (map g) ll = map (map g') ll.
Proof.
  intros H Hbox. rewrite forallb_forall in Hbox.
  apply map_ext_in; intros l Hl.
  specialize (Hbox l Hl). rewrite forallb_forall in Hbox.
  apply map_ext_in; intros r Hr. apply H, Hbox, Hr.
Qed.


(** X2. A conversion between two formats that are not relative does not look
    at the images: with any images, or none, the outcome is the same, for
    every tensor. *)
Theorem convert_format_absolute_ignores_images (boxes : Tensor)
    (source target : format) (images images' : option Images) (dt : dtype) :
  is_relative source = false ->
  is_relative target = false ->
  convert_format boxes (format_name source) (format_name target) images dt
  = convert_format boxes (format_name source) (format_name target) images' dt.
Proof.
  intros Hs Ht. rewrite !convert_format_names.
  destruct (format_eqb source target); [reflexivity|].
  rewrite !pivot_eq. unfold lacks_images. rewrite Hs, Ht. cbn [andb].
  destruct (format_eqb source XYXY || _); [|reflexivity].
  destruct (format_eqb target XYXY || _); [|reflexivity].
  do 2 f_equal. apply convert_records_ext; intro r.
  unfold record_convert.
  rewrite (record_to_xyxy_absolute source _ _
             (image_width images' (t_dtype (tf_cast boxes dt)))
             (image_height images' (t_dtype (tf_cast boxes dt))) r Hs).
  now apply record_from_xyxy_absolute.
Qed.

(** X3. Whatever [convert_format] returns has the requested dtype and the
    shape of the input: the same images, the same boxes in each image and the
    same number of fields in each box. *)
Theorem convert_format_keeps_shape (boxes : Tensor) (source target : string)
    (images : option Images) (dt : dtype) (r : Tensor) :
  convert_format boxes source target images dt = Ok r ->
  t_dtype r = dt /\ t_shape r = t_shape boxes.
Proof.
  intro H.
  assert (Hc : t_shape (tf_cast boxes dt) = t_shape boxes).
  { unfold t_shape, tf_cast; cbn [t_values]. rewrite map_map2.
    apply map_ext; intro l. apply map_ext; intro x. apply length_map. }
  destruct (convert_format_Ok _ _ _ _ _ _ H) as [f [g [Hs Ht]]].
  rewrite convert_format_lower, Hs, Ht, convert_format_names in H.
  destruct (format_eqb f g) eqn:E.
  - injection H as <-. now split.
  - apply (proj1 (except_RequiresImagesException_Ok _ _)) in H.
    rewrite pivot_eq in H.
    destruct (lacks_images f images); [discriminate H|].
    destruct (format_eqb f XYXY || is_box_tensor (tf_cast boxes dt)) eqn:E1;
      [|discriminate H].
    destruct (lacks_images g images); [discriminate H|].
    destruct (format_eqb g XYXY || is_box_tensor (tf_cast boxes dt)) eqn:E2;
      [|discriminate H].
    injection H as <-. split; [reflexivity|].
    rewrite <- Hc.
    pose proof (distinct_formats_split f g
                  (is_box_tensor (tf_cast boxes dt)) E) as Hbox.
    rewrite E1, E2 in Hbox. symmetry in Hbox. cbn [andb] in Hbox.
    unfold t_shape, convert_records; cbn [t_values]. rewrite map_map2.
    unfold is_box_tensor in Hbox. rewrite forallb_forall in Hbox.
    apply map_ext_in; intros l Hl.
    specialize (Hbox l Hl). rewrite forallb_forall in Hbox.
    apply map_ext_in; intros x Hx.
    apply length_record_convert, Hbox, Hx.
Qed.


(** X5. On a tensor with a record of fewer than four fields, a conversion
    between two distinct formats with images at hand fails in [tf.split],
    with the framework's error and not a [ValueError]. *)
Theorem convert_format_short_records (boxes : Tensor) (source target : format)
    (i : Images) (dt : dtype) :
  is_box_tensor boxes = false ->
  source <> target ->
  convert_format boxes (format_name source) (format_name target) (Some i) dt
  = Raise InvalidArgumentError.
Proof.
  intros Hbox Hne. apply format_eqb_neq in Hne.
  rewrite convert_format_names, Hne, pivot_eq, is_box_tensor_tf_cast, Hbox.
  replace (lacks_images source (Some i)) with false
    by (destruct source; reflexivity).
  replace (lacks_images target (Some i)) with false
    by (destruct target; reflexivity).
  destruct source, target; try reflexivity; discriminate Hne.
Qed.

(** In exact arithmetic, on a box tensor and with images of positive size,
    [convert_format] is one record function on every record, for every pair
    of formats. *)
Lemma convert_format_exact (boxes : Tensor) (source target : format)
    (i : Images) (dt : dtype) :
  (forall v, cast dt v = v) ->
  is_box_tensor boxes = true ->
  (0 < img_height i)%nat ->
  (0 < img_width i)%nat ->
  convert_format boxes (format_name source) (format_name target) (Some i) dt
  = Ok (convert_records
          (record_convert source target (qz (Z.of_nat (img_width i)))
             (qz (Z.of_nat (img_height i))))
          (mkTensor dt (t_values boxes))).
Proof.
  intros Hcast Hbox Hh Hw.
  pose proof (qz_neq_0 _ Hw) as Hw'. pose proof (qz_neq_0 _ Hh) as Hh'.
  rewrite convert_format_names, (tf_cast_exact boxes dt Hcast).
  destruct (format_eqb source target) eqn:E.
  - apply format_eqb_eq in E. subst target. f_equal.
    unfold convert_records; cbn [t_dtype t_values].
    rewrite map_records_id; [reflexivity| |exact Hbox].
    intros r Hr. now apply record_from_to_xyxy.
  - rewrite pivot_box_tensor by exact Hbox.
    cbn [except_RequiresImagesException t_dtype].
    unfold tf_cast_dim. now rewrite !Hcast.
Qed.

(** X1. In exact arithmetic, on a box tensor and with the same images of
    positive size, converting from a first format to a second and from there
    to a third gives what converting from the first to the third gives. *)
Theorem convert_format_transitive (boxes : Tensor) (A B C : format)
    (i : Images) (dt : dtype) :
  (forall v, cast dt v = v) ->
  is_box_tensor boxes = true ->
  (0 < img_height i)%nat ->
  (0 < img_width i)%nat ->
  exists mid : Tensor,
    convert_format boxes (format_name A) (format_name B) (Some i) dt = Ok mid
    /\ convert_format mid (format_name B) (format_name C) (Some i) dt
       = convert_format boxes (format_name A) (format_name C) (Some i) dt.
Proof.
  intros Hcast Hbox Hh Hw.
  pose proof (qz_neq_0 _ Hw) as Hw'. pose proof (qz_neq_0 _ Hh) as Hh'.
  eexists. split; [now apply convert_format_exact|].
  rewrite !convert_format_exact; try assumption.
  2:{ apply (is_box_tensor_convert_records _ (mkTensor dt (t_values boxes)));
        [|exact Hbox].
      intros r Hr.
      now apply length_record_from_xyxy, length_record_to_xyxy. }
  f_equal. unfold convert_records; cbn [t_dtype t_values]. f_equal.
  rewrite map_map2.
  apply map_records_ext_box; [|exact Hbox].
  intros r Hr. unfold record_convert.
  rewrite record_to_from_xyxy;
    [reflexivity | assumption | assumption | now apply length_record_to_xyxy].
Qed.


(** ** Properties of every record *)








(** X9. Images are converted one by one: when two batches of the same
    dtype convert, their concatenation along the batch axis converts to the
    concatenation of the two results. *)
Theorem convert_format_concat_batches (a b : Tensor) (source target : string)
    (images : option Images) (dt : dtype) (ra rb : Tensor) :
  t_dtype a = t_dtype b ->
  convert_format a source target images dt = Ok ra ->
  convert_format b source target images dt = Ok rb ->
  convert_format (concat_batches a b) source target images dt
  = Ok (concat_batches ra rb).
Proof.
  intros _ Ha Hb.
  assert (Hc : tf_cast (concat_batches a b) dt
               = concat_batches (tf_cast a dt) (tf_cast b dt)).
  { unfold tf_cast, concat_batches; cbn [t_dtype t_values].
    now rewrite map_app. }
  assert (Hg : forall g x y,
             convert_records g (concat_batches (tf_cast x dt) (tf_cast y dt))
             = concat_batches (convert_records g (tf_cast x dt))
                              (convert_records g (tf_cast y dt))).
  { intros g x y. unfold convert_records, concat_batches;
      cbn [t_dtype t_values tf_cast]. now rewrite map_app. }
  assert (Hx : forall x y,
             is_box_tensor (concat_batches x y)
             = is_box_tensor x && is_box_tensor y).
  { intros x y. unfold is_box_tensor, concat_batches; cbn [t_values].
    apply forallb_app. }
  destruct (convert_format_Ok _ _ _ _ _ _ Ha) as [f [g [Hs Ht]]].
  rewrite convert_format_lower, Hs, Ht, convert_format_names in Ha, Hb |- *.
  destruct (format_eqb f g).
  - injection Ha as <-. injection Hb as <-. now rewrite Hc.
  - apply (proj1 (except_RequiresImagesException_Ok _ _)) in Ha, Hb.
    rewrite pivot_eq in Ha, Hb. rewrite pivot_eq, Hc, Hx.
    destruct (lacks_images f images); [discriminate Ha|].
    destruct (lacks_images g images); [|].
    { destruct (format_eqb f XYXY || is_box_tensor (tf_cast a dt));
        discriminate Ha. }
    destruct (is_box_tensor (tf_cast a dt)), (is_box_tensor (tf_cast b dt));
      rewrite ?orb_true_r, ?orb_false_r in *; cbn [andb];
      rewrite ?orb_true_r, ?orb_false_r;
      destruct (format_eqb f XYXY); try discriminate Ha; try discriminate Hb;
      destruct (format_eqb g XYXY); try discriminate Ha; try discriminate Hb;
      cbn [except_RequiresImagesException];
      injection Ha as <-; injection Hb as <-;
      f_equal; apply Hg.
Qed.

End Converters.

(** ** The scenarios of the specification, in exact arithmetic *)

(** Equality of concrete tensors: the fractions are compared as fractions. *)
Ltac qc_values :=
  cbv -[Qcplus Qcminus Qcmult Qcdiv Q2Qc];
  repeat match goal with
         | |- @eq Qc _ _ => apply Qc_is_canon; vm_compute; reflexivity
         | |- Ok _ = Ok _ => apply f_equal
         | |- mkTensor _ _ = mkTensor _ _ => apply f_equal2; [reflexivity|]
         | |- cons _ _ = cons _ _ => apply f_equal2
         | |- nil = nil => reflexivity
         end.

Example str_dict_keys_TO_XYXY_CONVERTERS :
  str_dict_keys (TO_XYXY_CONVERTERS exact_cast)
  = "dict_keys(['xywh', 'center_xywh', 'xyxy', 'rel_xyxy'])".
Proof. reflexivity. Qed.

Example unsupported_source_msg_corners :
  convert_format exact_cast corner_box "Corners" "xyxy" None float32
  = Raise (ValueError
      ("`convert_format()` received an unsupported format for the argument "
       ++ "`source`.  `source` should be one of "
       ++ "dict_keys(['xywh', 'center_xywh', 'xyxy', 'rel_xyxy']). "
       ++ "Got source=corners")).
Proof. reflexivity. Qed.

Example short_records_do_not_split :
  convert_format exact_cast (mkTensor float32 [[[qz 1; qz 2; qz 3]]])
    "xywh" "xyxy" None float32
  = Raise InvalidArgumentError.
Proof. reflexivity. Qed.

(** C7. The corner box [10, 10, 110, 110] in an image of height 1000 and
    width 1000 becomes [0.01, 0.01, 0.11, 0.11] in the relative format, and
    that box converted back with the same image is [10, 10, 110, 110]. *)
Theorem corner_box_to_relative_and_back :
  convert_format exact_cast corner_box "xyxy" "rel_xyxy" (Some images_1000)
    float32 = Ok relative_box
  /\ convert_format exact_cast relative_box "rel_xyxy" "xyxy"
       (Some images_1000) float32 = Ok corner_box.
Proof. split; qc_values. Qed.

(** C8. The center box [60, 60, 100, 100] becomes [10, 10, 100, 100] as top
    left corner, width and height. *)
Theorem center_box_to_top_left :
  convert_format exact_cast center_box "center_xywh" "xywh" None float32
  = Ok top_left_box.
Proof. qc_values. Qed.

(** ** The general properties at concrete inputs *)

Lemma convert_format_round_trip_witness :
  exists there back : Tensor,
    convert_format exact_cast corner_box "xyxy" "rel_xyxy" (Some images_1000)
      float32 = Ok there
    /\ convert_format exact_cast there "rel_xyxy" "xyxy" (Some images_1000)
         float32 = Ok back
    /\ t_values back = t_values corner_box.
Proof.
  apply (convert_format_round_trip exact_cast corner_box XYXY REL_XYXY
           images_1000 float32).
  - intro v; reflexivity.
  - reflexivity.
  - simpl; lia.
  - simpl; lia.
Defined.

Lemma convert_format_keeps_payload_witness :
  t_payload labelled_top_left_box
    = t_payload (tf_cast exact_cast labelled_corner_box float32)
  /\ t_payload labelled_top_left_box
     = map (map (map (exact_cast float32))) (t_payload labelled_corner_box).
Proof.
  apply (convert_format_keeps_payload exact_cast labelled_corner_box
           "xyxy" "xyWH" None float32 labelled_top_left_box).
  qc_values.
Defined.

Lemma convert_format_requires_images_witness :
  convert_format exact_cast corner_box "xyxy" "rel_xyxy" None float32
  = Raise (ValueError requires_images_msg)
  /\ (forall s, requires_images_msg <> unsupported_source_msg exact_cast s
                /\ requires_images_msg <> unsupported_target_msg exact_cast s).
Proof.
  apply (convert_format_requires_images exact_cast corner_box XYXY REL_XYXY
           float32).
  - reflexivity.
  - discriminate.
  - right; reflexivity.
Defined.

(** C3, as stated, fails for the pair of the relative format with itself:
    without images the call returns the boxes and raises nothing. *)
Lemma relative_to_relative_without_images :
  (is_relative REL_XYXY = true \/ is_relative REL_XYXY = true)
  /\ convert_format exact_cast relative_box "rel_xyxy" "rel_xyxy" None float32
     = Ok relative_box
  /\ convert_format exact_cast relative_box "rel_xyxy" "rel_xyxy" None float32
     <> Raise (ValueError requires_images_msg).
Proof.
  assert (E : convert_format exact_cast relative_box "rel_xyxy" "rel_xyxy"
                None float32 = Ok relative_box) by reflexivity.
  split; [left; reflexivity|].
  split; [exact E|].
  rewrite E. discriminate.
Qed.

Lemma convert_format_pivots_witness :
  dict_subscript (TO_XYXY_CONVERTERS exact_cast) "center_xywh"
    = Ok (to_xyxy_table exact_cast CENTER_XYWH)
  /\ dict_subscript (FROM_XYXY_CONVERTERS exact_cast) "xywh"
    = Ok (from_xyxy_table exact_cast XYWH)
  /\ convert_format exact_cast center_box "center_xywh" "xywh" None float32
     = except_RequiresImagesException
         (in_xyxy <- to_xyxy_table exact_cast CENTER_XYWH
                       (tf_cast exact_cast center_box float32) None ;;
          from_xyxy_table exact_cast XYWH in_xyxy None)
  /\ (forall r : Tensor,
        pivot exact_cast CENTER_XYWH XYWH
          (tf_cast exact_cast center_box float32) None = Ok r <->
        convert_format exact_cast center_box "center_xywh" "xywh" None float32
          = Ok r).
Proof.
  apply (convert_format_pivots exact_cast center_box CENTER_XYWH XYWH None
           float32).
  discriminate.
Defined.

Lemma convert_format_unsupported_format_witness :
  exists msg : string,
    convert_format exact_cast corner_box "corners" "xyxy" None float32
      = Raise (ValueError msg)
    /\ (msg = unsupported_source_msg exact_cast (lower "corners")
        \/ msg = unsupported_target_msg exact_cast (lower "xyxy"))
    /\ (forall f, occurs_in (format_name f) msg)
    /\ ((forall f, lower "corners" <> format_name f) ->
        msg = unsupported_source_msg exact_cast (lower "corners")).
Proof.
  apply (convert_format_unsupported_format exact_cast corner_box
           "corners" "xyxy" None float32).
  left. intro f. destruct f; discriminate.
Defined.

Lemma convert_format_case_insensitive_witness :
  convert_format exact_cast corner_box "XYXY" "xyWH" None float32
  = convert_format exact_cast corner_box "xyxy" "xywh" None float32.
Proof.
  apply (convert_format_case_insensitive exact_cast corner_box
           "XYXY" "xyWH" XYXY XYWH None float32); reflexivity.
Defined.

(** ** The further properties at concrete inputs *)

Lemma convert_format_transitive_witness :
  exists mid : Tensor,
    convert_format exact_cast center_box "center_xywh" "rel_xyxy"
      (Some images_1000) float32 = Ok mid
    /\ convert_format exact_cast mid "rel_xyxy" "xywh" (Some images_1000)
         float32
       = convert_format exact_cast center_box "center_xywh" "xywh"
           (Some images_1000) float32.
Proof.
  apply (convert_format_transitive exact_cast center_box
           CENTER_XYWH REL_XYXY XYWH images_1000 float32).
  - intro v; reflexivity.
  - reflexivity.
  - simpl; lia.
  - simpl; lia.
Defined.

Lemma convert_format_absolute_ignores_images_witness :
  convert_format exact_cast center_box "center_xywh" "xywh"
    (Some images_1000) float32
  = convert_format exact_cast center_box "center_xywh" "xywh" None float32.
Proof.
  apply (convert_format_absolute_ignores_images exact_cast center_box
           CENTER_XYWH XYWH (Some images_1000) None float32); reflexivity.
Defined.

Lemma convert_format_keeps_shape_witness :
  t_dtype labelled_top_left_box = float32
  /\ t_shape labelled_top_left_box = t_shape labelled_corner_box.
Proof.
  apply (convert_format_keeps_shape exact_cast labelled_corner_box
           "xyxy" "xyWH" None float32 labelled_top_left_box).
  qc_values.
Defined.

Lemma convert_format_short_records_witness :
  convert_format exact_cast short_box "xywh" "xyxy" (Some images_1000) float32
  = Raise InvalidArgumentError.
Proof.
  apply (convert_format_short_records exact_cast short_box XYWH XYXY
           images_1000 float32).
  - reflexivity.
  - discriminate.
Defined.




Lemma convert_format_concat_batches_witness :
  convert_format exact_cast (concat_batches corner_box corner_box_2)
    "xyxy" "xywh" None float32
  = Ok (concat_batches top_left_box top_left_box_2).
Proof.
  apply (convert_format_concat_batches exact_cast corner_box corner_box_2
           "xyxy" "xywh" None float32 top_left_box top_left_box_2).
  - reflexivity.
  - qc_values.
  - qc_values.
Defined.

(** * Properties of the DenseNet assembler *)

Module DenseNetFacts.
Import DenseNet.

Section Facts.

Context {K : Keras}.











(** How a sequence of two steps returns. *)
Lemma io_bind_Returns {A B : Type} (m : io A) (k : A -> io B) (out : list string)
    (b : B) :
  io_bind m k = (out, Returns b) ->
  exists (a : A) (out1 out2 : list string),
    m = (out1, Returns a) /\ k a = (out2, Returns b) /\ out = out1 ++ out2.
Proof.
  destruct m as [out1 [a|e]]; cbn; [|discriminate].
  destruct (k a) as [out2 r] eqn:E. intro H. injection H as <- ->.
  now exists a, out1, out2.
Qed.






(** ** Checks on the arguments *)

(** X10. A [weights] path that names no file makes [DenseNet] raise the
    [ValueError] about the weights, before anything else is looked at, built
    or printed. *)
Theorem DenseNet_missing_weights_file (blocks : list Z)
    (include_preprocessing include_top : bool) (path : string)
    (input_tensor : option KTensor) (input_shape : list (option Z))
    (pooling : option string) (classes : Z)
    (classifier_activation : option string) :
  gfile_exists path = false ->
  DenseNet blocks include_preprocessing include_top (Some path) input_tensor
    input_shape pooling classes classifier_activation
  = ([], Raises (PyValueError weights_msg)).
Proof. intro H. unfold DenseNet. now rewrite H. Qed.


(** X12. Called with their default arguments ([weights="imagenet"],
    [input_shape=(None, None, 3)], [include_top=True]) the three constructors
    raise a [ValueError], whatever the framework and the files present, and
    build nothing. *)
Theorem DenseNet_constructors_defaults_raise (include_preprocessing : bool)
    (input_tensor : option KTensor) (pooling : option string) (classes : Z)
    (classifier_activation : option string) :
  let failed (m : io KModel) :=
    m = ([], Raises (PyValueError weights_msg))
    \/ m = ([], Raises (PyValueError
                          (input_shape_msg default_input_shape))) in
  failed (DenseNet121 include_preprocessing true default_weights input_tensor
            default_input_shape pooling classes classifier_activation)
  /\ failed (DenseNet169 include_preprocessing true default_weights
               input_tensor default_input_shape pooling classes
               classifier_activation)
  /\ failed (DenseNet201 include_preprocessing true default_weights
               input_tensor default_input_shape pooling classes
               classifier_activation).
Proof.
  cbv zeta. unfold DenseNet121, DenseNet169, DenseNet201, DenseNet.
  unfold default_weights. cbn [None_in existsb default_input_shape orb andb].
  destruct (gfile_exists "imagenet"); cbn [negb]; repeat split;
    solve [now left | now right].
Qed.

(** X13. [include_preprocessing] changes nothing: the rescaling layer it
    asks for is created and never applied, so the outcome, the model and the
    output are those of the call without it. *)
Theorem DenseNet_include_preprocessing_ignored (blocks : list Z)
    (include_top : bool) (weights : option string)
    (input_tensor : option KTensor) (input_shape : list (option Z))
    (pooling : option string) (classes : Z)
    (classifier_activation : option string) :
  DenseNet blocks true include_top weights input_tensor input_shape pooling
    classes classifier_activation
  = DenseNet blocks false include_top weights input_tensor input_shape pooling
      classes classifier_activation.
Proof. reflexivity. Qed.

(** ** What is printed, and the block counts *)




(** X15. With fewer than four block counts [DenseNet] never returns a
    model: whatever the framework does, the call ends in an exception. *)
Theorem DenseNet_needs_four_block_counts (blocks : list Z)
    (include_preprocessing include_top : bool) (weights : option string)
    (input_tensor : option KTensor) (input_shape : list (option Z))
    (pooling : option string) (classes : Z)
    (classifier_activation : option string) :
  (List.length blocks < 4)%nat ->
  exists e : py_exn,
    result_of (DenseNet blocks include_preprocessing include_top weights
                 input_tensor input_shape pooling classes
                 classifier_activation)
    = Raises e.
Proof.
  intro Hlen.
  destruct (DenseNet blocks include_preprocessing include_top weights
              input_tensor input_shape pooling classes classifier_activation)
    as [out [m|e]] eqn:H; [|now exists e].
  exfalso. unfold DenseNet in H.
  destruct (negb _); [discriminate H|].
  destruct (include_top && None_in input_shape); [discriminate H|].
  cbv zeta in H.
  do 16 (apply io_bind_Returns in H;
         destruct H as (? & ? & ? & _ & H & _)).
  apply io_bind_Returns in H. destruct H as (b & ? & ? & Hb & _ & _).
  unfold blocks_subscript in Hb.
  destruct (nth_error blocks 3) eqn:E; [|discriminate Hb].
  assert (E' : nth_error blocks 3 <> None) by (rewrite E; discriminate).
  apply nth_error_Some in E'. lia.
Qed.

End Facts.

(** ** Channels, for a framework that treats them as Keras does *)

Lemma py_int_Q2Qc (q : Q) : py_int (Q2Qc q) = Z.quot (Qnum q) (Zpos (Qden q)).
Proof.
  unfold py_int. cbn [this Q2Qc].
  pose proof (Qred_correct q) as E. unfold Qeq in E.
  destruct (Qred q) as [n d], q as [n' d']. cbn [Qnum Qden] in *.
  rewrite <- (Z.quot_mul_cancel_r n (Zpos d) (Zpos d')) by lia.
  rewrite E.
  rewrite (Z.mul_comm (Zpos d) (Zpos d')).
  apply Z.quot_mul_cancel_r; lia.
Qed.

Lemma py_int_half (c : Z) : py_int (qz c * qc 1 2)%Qc = Z.quot c 2.
Proof.
  replace (qz c * qc 1 2)%Qc with (Q2Qc (c # 2)).
  - now rewrite py_int_Q2Qc.
  - unfold qz, qc, Qcmult. apply Q2Qc_eq_iff. cbn [this Q2Qc].
    rewrite !Qred_correct. unfold Qeq, inject_Z; cbn. lia.
Qed.

Section Channels.

Context {K : Keras}.

Hypothesis keeps : forall (l : layer) (x y : KTensor),
  keeps_channels l = true -> call l [x] = Returns y ->
  channels y = channels x.

Hypothesis convolves : forall (filters k s : Z) (p : string) (u : bool)
    (n : string) (x y : KTensor),
  call (Conv2D filters k s p u n) [x] = Returns y ->
  channels y = Some (Some filters).

Hypothesis concatenates : forall (n : string) (x x1 y : KTensor) (c c1 : Z),
  call (Concatenate BN_AXIS n) [x; x1] = Returns y ->
  channels x = Some (Some c) -> channels x1 = Some (Some c1) ->
  channels y = Some (Some (c + c1)%Z).

Lemma lift_Returns {A : Type} (o : outcome A) (out : list string) (a : A) :
  lift o = (out, Returns a) -> o = Returns a.
Proof. unfold lift. intro H. now injection H. Qed.

Lemma conv_block_channels (x y : KTensor) (growth_rate c : Z) (name : string)
    (out : list string) :
  conv_block x growth_rate name = (out, Returns y) ->
  channels x = Some (Some c) ->
  channels y = Some (Some (c + growth_rate)%Z).
Proof.
  unfold conv_block. intros H Hx.
  do 6 (apply io_bind_Returns in H;
        destruct H as (? & ? & ? & ?%lift_Returns & H & _)).
  apply lift_Returns in H.
  eapply concatenates; [exact H | exact Hx |].
  eapply convolves; eassumption.
Qed.

Lemma dense_block_loop_channels (range : list nat) (x y : KTensor) (c : Z)
    (name : string) (out : list string) :
  dense_block_loop x range name = (out, Returns y) ->
  channels x = Some (Some c) ->
  channels y = Some (Some (c + 32 * Z.of_nat (List.length range))%Z).
Proof.
  revert x c out.
  induction range as [|i range IH]; intros x c out H Hx.
  - cbn in H. injection H as _ <-. rewrite Hx. do 2 f_equal. cbn. lia.
  - cbn [dense_block_loop] in H.
    apply io_bind_Returns in H. destruct H as (x' & o1 & o2 & H1 & H2 & _).
    pose proof (conv_block_channels _ _ _ _ _ _ H1 Hx) as Hx'.
    rewrite (IH _ _ _ H2 Hx'). do 2 f_equal. cbn [List.length]. lia.
Qed.

(** X16. In a framework where a convolution has as many channels as
    filters and a concatenation along the channel axis adds the channels up,
    a dense block that returns has added 32 channels for each of its building
    blocks (none for a count below one). *)
Theorem dense_block_channels (x y : KTensor) (blocks c : Z) (name : string)
    (out : list string) :
  dense_block x blocks name = (out, Returns y) ->
  channels x = Some (Some c) ->
  channels y = Some (Some (c + 32 * Z.max 0 blocks)%Z).
Proof.
  unfold dense_block. intros H Hx.
  rewrite (dense_block_loop_channels _ _ _ _ _ _ H Hx).
  rewrite length_seq. do 2 f_equal. lia.
Qed.

(** X17. In a framework where normalisation, activation and pooling keep
    the channels and a convolution has as many channels as filters, a
    transition block that returns has [int(channels * reduction)] channels;
    with the reduction 0.5 of [DenseNet] that is half the channels, rounded
    towards zero. *)
Theorem transition_block_channels (x y : KTensor) (reduction : Qc) (c : Z)
    (name : string) (out : list string) :
  transition_block x reduction name = (out, Returns y) ->
  channels x = Some (Some c) ->
  channels y = Some (Some (py_int (qz c * reduction)%Qc))
  /\ (reduction = qc 1 2 -> channels y = Some (Some (Z.quot c 2))).
Proof.
  unfold transition_block. intros H Hx.
  apply io_bind_Returns in H.
  destruct H as (t1 & o1 & o1' & H1%lift_Returns & H & _).
  apply io_bind_Returns in H.
  destruct H as (t2 & o2 & o2' & H2%lift_Returns & H & _).
  apply io_bind_Returns in H.
  destruct H as (filters & o3 & o3' & Hf & H & _).
  apply io_bind_Returns in H.
  destruct H as (t3 & o4 & o4' & H3%lift_Returns & H%lift_Returns & _).
  assert (Hx2 : channels t2 = Some (Some c)).
  { rewrite (keeps (Activation _ _) _ _ eq_refl H2).
    rewrite (keeps (BatchNormalization _ _ _) _ _ eq_refl H1). exact Hx. }
  unfold channels in Hx2. rewrite Hx2 in Hf.
  injection Hf as _ <-.
  assert (Hy : channels y = Some (Some (py_int (qz c * reduction)%Qc))).
  { rewrite (keeps (AveragePooling2D _ _ _) _ _ eq_refl H).
    eapply convolves; exact H3. }
  split; [exact Hy|].
  intros ->. now rewrite Hy, py_int_half.
Qed.

End Channels.

(** ** The properties in the framework that follows the channels *)

Lemma channel_keras_keeps (l : layer) (x y : Z) :
  keeps_channels l = true ->
  call (Keras := channel_keras) l [x] = Returns y ->
  channels (K := channel_keras) y = channels (K := channel_keras) x.
Proof.
  destruct l; cbn; intros Hl H; try discriminate Hl;
    injection H as <-; reflexivity.
Defined.

Lemma channel_keras_convolves (filters k s : Z) (p : string) (u : bool)
    (n : string) (x y : Z) :
  call (Keras := channel_keras) (Conv2D filters k s p u n) [x] = Returns y ->
  channels (K := channel_keras) y = Some (Some filters).
Proof. cbn. intro H. injection H as <-. reflexivity. Defined.

Lemma channel_keras_concatenates (n : string) (x x1 y c c1 : Z) :
  call (Keras := channel_keras) (Concatenate BN_AXIS n) [x; x1] = Returns y ->
  channels (K := channel_keras) x = Some (Some c) ->
  channels (K := channel_keras) x1 = Some (Some c1) ->
  channels (K := channel_keras) y = Some (Some (c + c1)%Z).
Proof.
  cbn. intros H Hx Hx1.
  injection H as <-. injection Hx as ->. injection Hx1 as ->. reflexivity.
Defined.

Lemma DenseNet_missing_weights_file_witness :
  DenseNet (K := channel_keras) [6; 12; 24; 16]%Z true false
    (Some "densenet121.h5") None [Some 224; Some 224; Some 3]%Z None 1000
    (Some "softmax")
  = ([], Raises (PyValueError weights_msg)).
Proof.
  apply (@DenseNet_missing_weights_file channel_keras).
  reflexivity.
Defined.


Lemma DenseNet_needs_four_block_counts_witness :
  exists e : py_exn,
    result_of
      (DenseNet (K := channel_keras) [6; 12; 24]%Z false true None None
         [Some 224; Some 224; Some 3]%Z None 1000 (Some "softmax"))
    = Raises e.
Proof.
  apply (@DenseNet_needs_four_block_counts channel_keras).
  simpl; lia.
Defined.

Lemma dense_block_channels_witness :
  channels (K := channel_keras) 256%Z
  = Some (Some (64 + 32 * Z.max 0 6)%Z).
Proof.
  apply (@dense_block_channels channel_keras
           channel_keras_convolves channel_keras_concatenates
           64%Z 256%Z 6%Z 64%Z "conv2" []).
  - reflexivity.
  - reflexivity.
Defined.

Lemma transition_block_channels_witness :
  channels (K := channel_keras) 128%Z
  = Some (Some (py_int (qz 256 * qc 1 2)%Qc))
  /\ (qc 1 2 = qc 1 2 ->
      channels (K := channel_keras) 128%Z = Some (Some (Z.quot 256 2))).
Proof.
  apply (@transition_block_channels channel_keras
           channel_keras_keeps channel_keras_convolves
           256%Z 128%Z (qc 1 2) 256%Z "pool2" []).
  - reflexivity.
  - reflexivity.
Defined.

End DenseNetFacts.

